(** * gluonts.dataset.common: the dataset ingestion and field-validation pipeline

    A shallow embedding of [src/gluonts/dataset/common.py]: the start-field
    processor ([ProcessStartField]), the field coercer
    ([ProcessTimeSeriesField]), the record processor ([ProcessDataEntry]),
    the memory-backed dataset ([ListDataset]) and the serializer
    ([serialize_data_entry]).

    Python dictionaries are finite maps from strings to Python values.  The
    dictionaries handed to [ListDataset] are mutated in place and shared by
    reference, so they live in an object store addressed by locations.
    Exceptions are an explicit result type. *)

From Stdlib Require Import ZArith Ascii String List Lia Bool.
From stdpp Require Import base option gmap strings list fin_maps pretty.

Set Warnings "-register-all,-clear-no-such-hyp".

Open Scope string_scope.
Open Scope list_scope.
Open Scope Z_scope.

(** ** Exceptions *)

Inductive exn : Type :=
| GluonTSDataError (msg : string)
| KeyError (key : string)
| TypeError (msg : string)
| ValueError (msg : string)
| ZeroDivisionError (msg : string)
| OtherError (msg : string).

Inductive result (A : Type) : Type :=
| Ok (a : A)
| Raise (e : exn).

Arguments Ok {A} a.
Arguments Raise {A} e.

Definition bind {A B : Type} (r : result A) (k : A → result B) : result B :=
  match r with
  | Ok a => k a
  | Raise e => Raise e
  end.

Notation "'let*' x ':=' r 'in' k" := (bind r (fun x => k))
  (at level 10, x name, r at level 100, k at level 200, only parsing).

(** [str(e)] of an exception, as interpolated in an f-string. *)
Definition exn_str (e : exn) : string :=
  match e with
  | GluonTSDataError m | TypeError m | ValueError m | ZeroDivisionError m
  | OtherError m => m
  | KeyError k => "'" +:+ k +:+ "'"
  end.

Definition is_DataError (e : exn) : bool :=
  match e with GluonTSDataError _ => true | _ => false end.

(** ** The pandas collaborator: frequencies and timestamps

    [common.py] uses [pd.Timestamp], [to_offset], [rollback], [replace] and
    [floor].  The reading of a frequency string is left to the runtime; what
    the offsets it yields do to a timestamp is modelled here.  A timestamp
    is its wall-clock nanosecond count since 1970-01-01T00:00 (pandas'
    [value], taken in local time), an optional fixed UTC offset in minutes
    and the frequency it is tagged with; its UTC instant has to fit pandas'
    64-bit range, which every operation that makes a timestamp checks. *)

Module pd.

Inductive weekday : Type := MON | TUE | WED | THU | FRI | SAT | SUN.

Definition weekday_num (w : weekday) : Z :=
  match w with
  | MON => 0 | TUE => 1 | WED => 2 | THU => 3 | FRI => 4 | SAT => 5 | SUN => 6
  end.

Definition weekday_code (w : weekday) : string :=
  match w with
  | MON => "MON" | TUE => "TUE" | WED => "WED" | THU => "THU"
  | FRI => "FRI" | SAT => "SAT" | SUN => "SUN"
  end.

(** Fixed-length units ([Tick] subclasses). *)
Inductive tick : Type := Day | Hour | Minute | Second | Milli | Micro | Nano.

Definition tick_nanos (u : tick) : Z :=
  match u with
  | Day => 86400000000000
  | Hour => 3600000000000
  | Minute => 60000000000
  | Second => 1000000000
  | Milli => 1000000
  | Micro => 1000
  | Nano => 1
  end.

Definition tick_code (u : tick) : string :=
  match u with
  | Day => "D" | Hour => "H" | Minute => "T" | Second => "S"
  | Milli => "L" | Micro => "U" | Nano => "N"
  end.

(** A [DateOffset]: [n] times a base rule, [n] being any integer.
    [Calendar] stands for the other calendar rules (month start, quarter,
    year, ...), by their rule code; their grid is not fixed and pandas
    refuses to floor on them. *)
Inductive offset : Type :=
| Tick (n : Z) (u : tick)
| MonthEnd (n : Z)
| Week (n : Z) (anchor : weekday)
| BusinessDay (n : Z)
| Calendar (n : Z) (code : string).

#[global] Instance weekday_eq_dec : EqDecision weekday.
Proof. solve_decision. Defined.

#[global] Instance tick_eq_dec : EqDecision tick.
Proof. solve_decision. Defined.

#[global] Instance offset_eq_dec : EqDecision offset.
Proof. solve_decision. Defined.

(** [offset.name]: the rule code, without the multiple. *)
Definition name (o : offset) : string :=
  match o with
  | Tick _ u => tick_code u
  | MonthEnd _ => "M"
  | Week _ w => "W-" +:+ weekday_code w
  | BusinessDay _ => "B"
  | Calendar _ c => c
  end.

Definition multiple (o : offset) : Z :=
  match o with
  | Tick n _ | MonthEnd n | Week n _ | BusinessDay n | Calendar n _ => n
  end.

Record Timestamp : Type := mkTimestamp {
  value : Z;
  tz : option Z;
  freq : option offset
}.

#[global] Instance Timestamp_eq_dec : EqDecision Timestamp.
Proof. solve_decision. Defined.

(** *** The proleptic Gregorian calendar

    Day numbers are ordinals as in Python's [datetime]: day 1 is 0001-01-01,
    and 1970-01-01 is day 719163. *)

Definition is_leap (y : Z) : bool :=
  (y mod 4 =? 0) && (negb (y mod 100 =? 0) || (y mod 400 =? 0)).

Definition month_length (m : Z) : Z :=
  if m =? 2 then 28
  else if (m =? 4) || (m =? 6) || (m =? 9) || (m =? 11) then 30
  else 31.

Definition days_in_month (y m : Z) : Z :=
  if (m =? 2) && is_leap y then 29 else month_length m.

Definition days_before_year (y : Z) : Z :=
  let p := y - 1 in 365 * p + p / 4 - p / 100 + p / 400.

Definition month_start (m : Z) : Z :=
  match m with
  | 1 => 0 | 2 => 31 | 3 => 59 | 4 => 90 | 5 => 120 | 6 => 151
  | 7 => 181 | 8 => 212 | 9 => 243 | 10 => 273 | 11 => 304 | _ => 334
  end.

Definition days_before_month (y m : Z) : Z :=
  month_start m + (if (2 <? m) && is_leap y then 1 else 0).

Definition ymd2ord (y m d : Z) : Z :=
  days_before_year y + days_before_month y m + d.

(** Month and day of day [n] (counted from 0) of a year. *)
Definition month_day (n : Z) (leapyear : bool) : Z * Z :=
  let month := Z.shiftr (n + 50) 5 in
  let preceding :=
    month_start month + (if (2 <? month) && leapyear then 1 else 0) in
  if n <? preceding then
    let month' := month - 1 in
    let preceding' :=
      preceding
      - (month_length month' + (if (month' =? 2) && leapyear then 1 else 0)) in
    (month', n - preceding' + 1)
  else (month, n - preceding + 1).

(** The date of day [r] (counted from 0) of a 400-year cycle whose first
    year is numbered 1. *)
Definition cycle_ymd (r : Z) : Z * Z * Z :=
  let n100 := r / 36524 in
  let r1 := r mod 36524 in
  let n4 := r1 / 1461 in
  let r2 := r1 mod 1461 in
  let n1 := r2 / 365 in
  let n := r2 mod 365 in
  let year := 1 + n100 * 100 + n4 * 4 + n1 in
  if (n1 =? 4) || (n100 =? 4) then (year - 1, 12, 31)
  else
    let leapyear := (n1 =? 3) && (negb (n4 =? 24) || (n100 =? 3)) in
    let '(month, day) := month_day n leapyear in
    (year, month, day).

Definition ord2ymd (n : Z) : Z * Z * Z :=
  let n0 := n - 1 in
  let '(y, m, d) := cycle_ymd (n0 mod 146097) in
  (400 * (n0 / 146097) + y, m, d).

Definition valid_date (c : Z * Z * Z) : Prop :=
  let '(y, m, d) := c in 1 <= m <= 12 ∧ 1 <= d <= days_in_month y m.

(** The numbers below [n], and the table check behind [month_day]: on every
    day of a year it yields a month, a day within that month, and the day
    count it started from. *)
Definition below (n : nat) : list Z := map Z.of_nat (seq 0 n).

Definition month_day_ok (leapyear : bool) (n : Z) : bool :=
  let '(m, d) := month_day n leapyear in
  (1 <=? m) && (m <=? 12) && (1 <=? d)
  && (d <=? (if (m =? 2) && leapyear then 29 else month_length m))
  && (month_start m + (if (2 <? m) && leapyear then 1 else 0) + d =? n + 1).

(** *** Timestamp fields *)

Definition DAY : Z := 86400000000000.

Definition epoch_ordinal : Z := 719163.

Definition toordinal (v : Z) : Z := v / DAY + epoch_ordinal.

Definition date_of (v : Z) : Z * Z * Z := ord2ymd (toordinal v).

Definition time_of_day (v : Z) : Z := v mod DAY.

(** Monday is 0; 1970-01-01 was a Thursday. *)
Definition weekday_of (v : Z) : Z := (v / DAY + 3) mod 7.

(** [replace(hour=0, minute=0, second=0, microsecond=0, nanosecond=0)]. *)
Definition midnight (v : Z) : Z := v - time_of_day v.

(** *** Offsets on the grid *)

Definition is_on_offset (o : offset) (v : Z) : option bool :=
  match o with
  | Tick _ _ => Some true
  | MonthEnd _ => let '(y, m, d) := date_of v in Some (d =? days_in_month y m)
  | Week _ w => Some (weekday_of v =? weekday_num w)
  | BusinessDay _ => Some (weekday_of v <? 5)
  | Calendar _ _ => None
  end.

(** [dt - type(offset)(1)]: one step of the base rule backwards. *)
Definition minus_one (o : offset) (v : Z) : option Z :=
  match o with
  | Tick _ u => Some (v - tick_nanos u)
  | MonthEnd _ =>
      let '(y, m, d) := date_of v in
      let '(y', m') := if m =? 1 then (y - 1, 12) else (y, m - 1) in
      Some ((ymd2ord y' m' (days_in_month y' m') - epoch_ordinal) * DAY
            + time_of_day v)
  | Week _ w =>
      let wd := weekday_of v in
      let v1 := if wd =? weekday_num w then v
                else v + ((weekday_num w - wd) mod 7) * DAY in
      Some (v1 - 7 * DAY)
  | BusinessDay _ =>
      let wd := weekday_of v in
      Some (v - (if wd =? 0 then 3 else if wd =? 6 then 2 else 1) * DAY)
  | Calendar _ _ => None
  end.

(** [offset.rollback(dt)]: [dt] itself when it is on the grid, else one step
    back.  [None]: the rule's grid is not modelled. *)
Definition rollback (o : offset) (v : Z) : option Z :=
  match is_on_offset o v with
  | Some true => Some v
  | Some false => minus_one o v
  | None => None
  end.

(** The rounding behind [Timestamp.floor(freq)]: only a fixed frequency has
    a length in nanoseconds, and the instant is taken down by its remainder
    on division by that length, a remainder that has the sign of the length:
    a negative multiple takes the instant up.  A length of zero is a
    division by zero. *)
Inductive rounding : Type :=
| Rounded (v : Z)
| NotFixed
| ZeroUnit.

Definition floor (o : offset) (v : Z) : rounding :=
  match o with
  | Tick n u =>
      let unit := n * tick_nanos u in
      if unit =? 0 then ZeroUnit else Rounded (v - v mod unit)
  | _ => NotFixed
  end.

(** *** The representable range

    The UTC instant of a timestamp is a signed 64-bit count of nanoseconds;
    the least 64-bit number is kept for [NaT]. *)

Definition min_value : Z := -9223372036854775807.

Definition max_value : Z := 9223372036854775807.

(** The UTC instant of a wall-clock reading under a fixed offset. *)
Definition utc (v : Z) (tz : option Z) : Z := v - default 0 tz * 60000000000.

Definition in_bounds (v : Z) (tz : option Z) : bool :=
  (min_value <=? utc v tz) && (utc v tz <=? max_value).

(** What pandas reports while a timestamp is normalized, apart from an
    invalid frequency string: a reading outside the range, a rounding that
    leaves the range, a frequency that is not fixed, a division by zero. *)
Inductive fault : Type :=
| OutOfBounds (v : Z) (tz : option Z)
| CannotRound (v : Z) (o : offset)
| NonFixedFrequency (o : offset)
| DivisionByZero.

End pd.

(** ** numpy arrays: a shape and the flat row-major buffer *)

Module np.

Inductive dtype : Type := int32 | float32.

Record ndarray (A : Type) : Type := mkArray {
  shape : list nat;
  flat : list A
}.

Arguments mkArray {A} shape flat.
Arguments shape {A} _.
Arguments flat {A} _.

Definition ndim {A : Type} (a : ndarray A) : Z := Z.of_nat (length (shape a)).

(** [np.expand_dims(a, axis=0)]. *)
Definition expand_dims {A : Type} (a : ndarray A) : ndarray A :=
  mkArray (1%nat :: shape a) (flat a).

(** Stacks the arrays built from the elements of a sequence; they must all
    have the shape of the first one. *)
Definition stack {A : Type} (rows : list (ndarray A)) : result (ndarray A) :=
  match rows with
  | [] => Ok (mkArray [0%nat] [])
  | r :: _ =>
      if forallb (fun x => bool_decide (shape x = shape r)) rows
      then Ok (mkArray (length rows :: shape r) (concat (map flat rows)))
      else Raise (ValueError "setting an array element with a sequence.")
  end.

End np.

(** ** Python values *)

Record SourceContext : Type := mkSourceContext {
  source : string;
  row : Z
}.

Inductive pyval (S : Type) : Type :=
| PNone
| PNum (x : S)
| PStr (s : string)
| PList (l : list (pyval S))
| PArray (a : np.ndarray S)
| PTimestamp (t : pd.Timestamp)
| PSource (c : SourceContext).

Arguments PNone {S}.
Arguments PNum {S} x.
Arguments PStr {S} s.
Arguments PList {S} l.
Arguments PArray {S} a.
Arguments PTimestamp {S} t.
Arguments PSource {S} c.

(** [v is None]. *)
Definition is_None {S : Type} (v : pyval S) : bool :=
  match v with PNone => true | _ => false end.

(** What a JSON encoder is handed: numbers, strings and nested lists. *)
Inductive json (S : Type) : Type :=
| JNum (x : S)
| JStr (s : string)
| JList (l : list (json S)).

Arguments JNum {S} x.
Arguments JStr {S} s.
Arguments JList {S} l.

(** The parts of the Python runtime and of numpy and pandas that the pipeline
    relies on without fixing: the numbers themselves (Python floats and ints,
    numpy's 32-bit elements), the conversion of a non-sequence value to an
    array element of a dtype, [ndarray.astype] on an element, [np.isnan],
    [str], the parsing of a raw value that is not yet a timestamp into a
    wall-clock instant and an optional UTC offset, the reading of a
    frequency string as an offset ([None] when pandas calls the string an
    invalid frequency), and the wording of the messages of pandas and of
    [np.broadcast_to] (given the shape of the array and the shape asked
    for).  Of the reading of frequency strings one fact is used: pandas
    gives the names [M] and [W-SUN] to month-end and Sunday-anchored weekly
    offsets only. *)
Class Runtime : Type := {
  scalar : Type;
  np_element : np.dtype → pyval scalar → result scalar;
  np_astype : np.dtype → scalar → scalar;
  np_isnan : scalar → bool;
  py_str : pyval scalar → string;
  pd_parse : pyval scalar → result (Z * option Z);
  pd_to_offset : string → option pd.offset;
  pd_fault_text : pd.fault → string;
  np_broadcast_text : list nat → list nat → string;
  pd_to_offset_names :
    ∀ s n c, pd_to_offset s = Some (pd.Calendar n c) → c ∉ ["M"; "W-SUN"]
}.

(** A data entry is a dictionary from field names to values. *)
Abbreviation DataEntry := (gmap string (pyval scalar)).

(** Dictionaries are objects, held in a store and referred to by location. *)
Definition loc : Type := nat.

Abbreviation store := (gmap loc DataEntry).

Definition dquote : string := String "034"%char EmptyString.

Section Pipeline.

Context {RT : Runtime}.

(** ** numpy and pandas entry points *)

(** [np.asarray(value, dtype=dtype)]: a sequence becomes one more axis over
    the arrays of its elements, an array is cast element by element, and
    anything else is a 0-d array. *)
Fixpoint np_asarray (dtype : np.dtype) (value : pyval scalar)
  : result (np.ndarray scalar) :=
  match value with
  | PList l =>
      let* rows :=
        (fix each (l : list (pyval scalar)) : result (list (np.ndarray scalar)) :=
           match l with
           | [] => Ok []
           | x :: r =>
               match np_asarray dtype x with
               | Ok a =>
                   match each r with
                   | Ok rest => Ok (a :: rest)
                   | Raise e => Raise e
                   end
               | Raise e => Raise e
               end
           end) l in
      np.stack rows
  | PArray a => Ok (np.mkArray (np.shape a) (map (np_astype dtype) (np.flat a)))
  | _ =>
      let* x := np_element dtype value in
      Ok (np.mkArray [] [x])
  end.

(** [to_offset(freq)] with its exception. *)
Definition to_offset (freq : string) : result pd.offset :=
  match pd_to_offset freq with
  | Some o => Ok o
  | None => Raise (ValueError ("Invalid frequency: " +:+ freq))
  end.

(** A reading outside the representable range makes pandas raise
    [OutOfBoundsDatetime], which is a [ValueError]. *)
Definition check_bounds (v : Z) (tz : option Z) : result Z :=
  if pd.in_bounds v tz then Ok v
  else Raise (ValueError (pd_fault_text (pd.OutOfBounds v tz))).

(** [pd.Timestamp(value, freq=freq)]: the value is converted first (a
    timestamp is taken as it is), then the frequency string. *)
Definition convert_to_tsobject (value : pyval scalar) : result (Z * option Z) :=
  let* p := match value with
            | PTimestamp t => Ok (pd.value t, pd.tz t)
            | _ => pd_parse value
            end in
  let* v := check_bounds p.1 p.2 in
  Ok (v, p.2).

Definition pd_Timestamp (value : pyval scalar) (freq : string)
  : result pd.Timestamp :=
  let* p := convert_to_tsobject value in
  let* o := to_offset freq in
  Ok (pd.mkTimestamp p.1 p.2 (Some o)).

(** ** ProcessStartField *)

Record ProcessStartField : Type := mkProcessStartField {
  psf_name : string;
  psf_freq : string
}.

(** [timestamp.replace(hour=0, minute=0, second=0, microsecond=0,
    nanosecond=0)]. *)
Definition Timestamp_replace_midnight (timestamp : pd.Timestamp)
  : result pd.Timestamp :=
  let* v := check_bounds (pd.midnight (pd.value timestamp)) (pd.tz timestamp) in
  Ok (pd.mkTimestamp v (pd.tz timestamp) (pd.freq timestamp)).

(** [offset.rollback(timestamp)]. *)
Definition offset_rollback (offset : pd.offset) (timestamp : pd.Timestamp)
  : result pd.Timestamp :=
  match pd.rollback offset (pd.value timestamp) with
  | Some v =>
      let* v := check_bounds v (pd.tz timestamp) in
      Ok (pd.mkTimestamp v (pd.tz timestamp) (pd.freq timestamp))
  | None => Raise (OtherError "rollback: rule not modelled")
  end.

(** [timestamp.floor(freq)]: a frequency that is not fixed and a rounding
    that leaves the range are [ValueError]s; a frequency of length zero is a
    [ZeroDivisionError]. *)
Definition Timestamp_floor (timestamp : pd.Timestamp) (freq : pd.offset)
  : result pd.Timestamp :=
  match pd.floor freq (pd.value timestamp) with
  | pd.Rounded v =>
      if pd.in_bounds v (pd.tz timestamp) then
        Ok (pd.mkTimestamp v (pd.tz timestamp) (pd.freq timestamp))
      else
        Raise (ValueError (pd_fault_text (pd.CannotRound (pd.value timestamp) freq)))
  | pd.NotFixed => Raise (ValueError (pd_fault_text (pd.NonFixedFrequency freq)))
  | pd.ZeroUnit => Raise (ZeroDivisionError (pd_fault_text pd.DivisionByZero))
  end.

(** [ProcessStartField.process].  The [lru_cache] around it memoises a pure
    function and is left out.  A frequency string read back from an offset
    ([offset.freqstr]) denotes that offset, and [== "B"] compares with the
    offset [B] denotes, one business day. *)
Definition ProcessStartField_process (raw : pyval scalar) (freq : string)
  : result pd.Timestamp :=
  let* timestamp := pd_Timestamp raw freq in
  match pd.freq timestamp with
  | None => Raise (OtherError "'NoneType' object has no attribute 'name'")
  | Some tfreq =>
      if bool_decide (pd.name tfreq ∈ ["M"; "W-SUN"]) then
        let* offset := to_offset freq in
        let* timestamp := Timestamp_replace_midnight timestamp in
        let* rolled := offset_rollback offset timestamp in
        Ok (pd.mkTimestamp (pd.value rolled) (pd.tz rolled) (Some offset))
      else if bool_decide (tfreq = pd.BusinessDay 1) then
        Ok timestamp
      else
        let* floored := Timestamp_floor timestamp tfreq in
        Ok (pd.mkTimestamp (pd.value floored) (pd.tz floored) (Some tfreq))
  end.

Definition start_error_message (e : exn) (name : string) : string :=
  "Error " +:+ dquote +:+ exn_str e +:+ dquote
  +:+ " occurred, when reading field " +:+ dquote +:+ name +:+ dquote.

Definition timezone_message (name : string) : string :=
  "Timezone information is not supported, but provided in the "
  +:+ dquote +:+ name +:+ dquote +:+ " field".

(** [ProcessStartField.__call__]: the dictionary after the call, or the
    exception (the dictionary is then untouched). *)
Definition ProcessStartField_call (self : ProcessStartField) (data : DataEntry)
  : result DataEntry :=
  let attempt :=
    match data !! psf_name self with
    | None => Raise (KeyError (psf_name self))
    | Some raw => ProcessStartField_process raw (psf_freq self)
    end in
  match attempt with
  | Raise (TypeError m) =>
      Raise (GluonTSDataError (start_error_message (TypeError m) (psf_name self)))
  | Raise (ValueError m) =>
      Raise (GluonTSDataError (start_error_message (ValueError m) (psf_name self)))
  | Raise e => Raise e
  | Ok value =>
      if bool_decide (pd.tz value ≠ None) then
        Raise (GluonTSDataError (timezone_message (psf_name self)))
      else Ok (<[psf_name self := PTimestamp value]> data)
  end.

(** ** ProcessTimeSeriesField *)

Record ProcessTimeSeriesField : Type := mkProcessTimeSeriesField {
  name : string;
  is_required : bool;
  req_ndim : Z;
  dtype : np.dtype
}.

(** [ProcessTimeSeriesField.__init__]. *)
Definition ProcessTimeSeriesField_init
  (name : string) (is_required is_static is_cat : bool) : ProcessTimeSeriesField :=
  mkProcessTimeSeriesField name is_required
    (if is_static then 1 else 2)
    (if is_cat then np.int32 else np.float32).

Definition bad_shape_message (req_ndim ddiff : Z) : string :=
  "JSON array has bad shape - expected " +:+ pretty req_ndim
  +:+ " dimensions, got " +:+ pretty ddiff.

Definition missing_field_message (name : string) : string :=
  "JSON object is missing a required field `" +:+ name +:+ "`".

(** [ProcessTimeSeriesField.__call__]. *)
Definition ProcessTimeSeriesField_call
  (self : ProcessTimeSeriesField) (data : DataEntry) : result DataEntry :=
  let value := default PNone (data !! name self) in
  if negb (is_None value) then
    let* value := np_asarray (dtype self) value in
    let ddiff := req_ndim self - np.ndim value in
    if ddiff =? 1 then
      Ok (<[name self := PArray (np.expand_dims value)]> data)
    else if negb (ddiff =? 0) then
      Raise (GluonTSDataError (bad_shape_message (req_ndim self) ddiff))
    else Ok (<[name self := PArray value]> data)
  else if negb (is_required self) then Ok data
  else Raise (GluonTSDataError (missing_field_message (name self))).

(** ** ProcessDataEntry *)

(** [ProcessDataEntry.__init__]: the list [self.trans]. *)
Definition ProcessDataEntry_init (freq : string) (one_dim_target : bool)
  : list (DataEntry → result DataEntry) :=
  [ ProcessStartField_call (mkProcessStartField "start" freq);
    ProcessTimeSeriesField_call
      (ProcessTimeSeriesField_init "target" true one_dim_target false);
    ProcessTimeSeriesField_call
      (ProcessTimeSeriesField_init "feat_dynamic_cat" false false true);
    ProcessTimeSeriesField_call
      (ProcessTimeSeriesField_init "feat_dynamic_real" false false false);
    ProcessTimeSeriesField_call
      (ProcessTimeSeriesField_init "feat_static_cat" false true true);
    ProcessTimeSeriesField_call
      (ProcessTimeSeriesField_init "feat_static_real" false true false) ].

(** [ProcessDataEntry.__call__] on the contents of one dictionary. *)
Fixpoint ProcessDataEntry_call
  (trans : list (DataEntry → result DataEntry)) (data : DataEntry)
  : result DataEntry :=
  match trans with
  | [] => Ok data
  | t :: rest => let* data := t data in ProcessDataEntry_call rest data
  end.

(** ** The object store

    Dictionaries are objects: a transformation changes the dictionary it is
    given and returns that same object.  [in_place t l] runs [t] on the
    dictionary at [l]; the assignment [data[name] = value] is the last thing
    a transformation does, so a failing one leaves the store as it was. *)

Definition in_place (t : DataEntry → result DataEntry) (l : loc) (σ : store)
  : store * result loc :=
  match σ !! l with
  | None => (σ, Raise (OtherError "dangling reference"))
  | Some data =>
      match t data with
      | Ok data' => (<[l := data']> σ, Ok l)
      | Raise e => (σ, Raise e)
      end
  end.

(** [ProcessDataEntry.__call__] on an object of the store. *)
Fixpoint ProcessDataEntry_run
  (trans : list (DataEntry → result DataEntry)) (l : loc) (σ : store)
  : store * result loc :=
  match trans with
  | [] => (σ, Ok l)
  | t :: rest =>
      match in_place t l σ with
      | (σ', Ok l') => ProcessDataEntry_run rest l' σ'
      | (σ', Raise e) => (σ', Raise e)
      end
  end.

(** [data[key] = v] on the object at [l]. *)
Definition setitem (l : loc) (key : string) (v : pyval scalar) (σ : store)
  : store :=
  match σ !! l with
  | Some data => <[l := <[key := v]> data]> σ
  | None => σ
  end.

(** ** ListDataset *)

Record ListDataset : Type := mkListDataset {
  list_data : list loc
}.

(** The list comprehension [[process(data) for data in data_iter]]. *)
Fixpoint process_each
  (process : loc → store → store * result loc) (data_iter : list loc)
  (σ : store) : store * result (list loc) :=
  match data_iter with
  | [] => (σ, Ok [])
  | data :: rest =>
      match process data σ with
      | (σ', Ok l) =>
          match process_each process rest σ' with
          | (σ'', Ok ls) => (σ'', Ok (l :: ls))
          | (σ'', Raise e) => (σ'', Raise e)
          end
      | (σ', Raise e) => (σ', Raise e)
      end
  end.

(** [ListDataset.__init__]: the iterable hands over references to its
    dictionaries, in order. *)
Definition ListDataset_init
  (data_iter : list loc) (freq : string) (one_dim_target : bool) (σ : store)
  : store * result ListDataset :=
  let process := ProcessDataEntry_run (ProcessDataEntry_init freq one_dim_target) in
  match process_each process data_iter σ with
  | (σ', Ok ls) => (σ', Ok (mkListDataset ls))
  | (σ', Raise e) => (σ', Raise e)
  end.

(** [ListDataset.__len__]. *)
Definition ListDataset_len (self : ListDataset) : nat := length (list_data self).

(** [enumerate(l, start)]. *)
Fixpoint enumerate {A : Type} (start : Z) (l : list A) : list (Z * A) :=
  match l with
  | [] => []
  | x :: r => (start, x) :: enumerate (start + 1) r
  end.

(** [ListDataset.__iter__] is a generator; its state is what is left of
    [enumerate(self.list_data, start=1)]. *)
Definition ListDataset_iter (self : ListDataset) : list (Z * loc) :=
  enumerate 1 (list_data self).

(** [SourceContext(source=source_name, row=row_number)] with
    [source_name = "list_data"]. *)
Definition stamp (row_number : Z) : pyval scalar :=
  PSource (mkSourceContext "list_data" row_number).

(** One [next()] on the generator: the loop body up to and including the
    [yield].  [None] is [StopIteration]. *)
Definition generator_next (g : list (Z * loc)) (σ : store)
  : option (loc * list (Z * loc) * store) :=
  match g with
  | [] => None
  | (row_number, data) :: rest =>
      Some (data, rest, setitem data "source" (stamp row_number) σ)
  end.

(** A [for entry in dataset] loop whose body computes [body entry] from the
    dictionary it is handed and touches nothing: the values computed, in
    order, and the store at the end. *)
Fixpoint for_each {B : Type} (body : DataEntry → B) (g : list (Z * loc))
  (σ : store) : list B * store :=
  match g with
  | [] => ([], σ)
  | (row_number, data) :: rest =>
      let σ' := setitem data "source" (stamp row_number) σ in
      let '(out, σ'') := for_each body rest σ' in
      (body (default ∅ (σ' !! data)) :: out, σ'')
  end.

(** The row number a full pass of the generator leaves on the object at
    [l]: that of its last occurrence in the list, if it occurs. *)
Fixpoint final_row (g : list (Z * loc)) (l : loc) : option Z :=
  match g with
  | [] => None
  | (row_number, data) :: rest =>
      match final_row rest l with
      | Some r => Some r
      | None => if bool_decide (data = l) then Some row_number else None
      end
  end.

(** ** Serialization *)

(** Cuts a buffer into [n] consecutive rows of [k] elements. *)
Fixpoint rows {A : Type} (n k : nat) (l : list A) : list (list A) :=
  match n with
  | O => []
  | S n' => take k l :: rows n' k (drop k l)
  end.

(** [ndarray.tolist()]: nested lists along the shape; a 0-d array is its
    element. *)
Fixpoint tolist (shape : list nat) (flat : list (json scalar)) : json scalar :=
  match shape with
  | [] => match flat with x :: _ => x | [] => JList [] end
  | n :: rest =>
      JList (map (tolist rest) (rows n (foldr Nat.mul 1%nat rest) flat))
  end.

(** The inner [serialize_field]. *)
Definition serialize_field (field : pyval scalar) : json scalar :=
  match field with
  | PArray a =>
      tolist (np.shape a)
        (map (fun x => if np_isnan x then JStr "NaN" else JNum x) (np.flat a))
  | _ => JStr (py_str field)
  end.

(** [serialize_data_entry]:
    [{k: serialize_field(v) for k, v in data.items() if v is not None}]. *)
Definition serialize_data_entry (data : DataEntry) : gmap string (json scalar) :=
  omap (fun v => if is_None v then None else Some (serialize_field v)) data.

(** The loop of [save_datasets] over [dataset.train]: the mappings dumped,
    one per line of [train/data.json], and the store afterwards. *)
Definition save_datasets_train (train : ListDataset) (σ : store)
  : list (gmap string (json scalar)) * store :=
  for_each serialize_data_entry (ListDataset_iter train) σ.

End Pipeline.

(** ** A concrete runtime

    Integer-valued numbers with a not-a-number element, ISO-8601 timestamps
    ([YYYY-MM-DD], [YYYY-MM-DDTHH:MM:SS], optionally followed by [+HH:MM] or
    [-HH:MM]), integers read as nanoseconds since the epoch, and the usual
    frequency strings.  It is used to run the pipeline on concrete
    records. *)

Module Demo.

Inductive number : Type := Num (z : Z) | NaN.

Definition element (dt : np.dtype) (v : pyval number) : result number :=
  match v, dt with
  | PNum (Num z), np.int32 =>
      if (-2147483648 <=? z) && (z <=? 2147483647) then Ok (Num z)
      else Raise (OtherError "Python int too large to convert to C long")
  | PNum (Num z), np.float32 => Ok (Num z)
  | PNum NaN, np.float32 => Ok NaN
  | PNum NaN, np.int32 => Raise (ValueError "cannot convert float NaN to integer")
  | PNone, np.float32 => Ok NaN
  | PNone, np.int32 =>
      Raise (TypeError "int() argument must be a string, a bytes-like object or a number, not 'NoneType'")
  | PStr s, _ => Raise (ValueError ("could not convert string to float: '" +:+ s +:+ "'"))
  | _, _ => Raise (TypeError "float() argument must be a string or a number")
  end.

Definition astype (dt : np.dtype) (x : number) : number :=
  match x, dt with
  | NaN, np.int32 => Num (-2147483648)
  | _, _ => x
  end.

Definition isnan (x : number) : bool :=
  match x with NaN => true | Num _ => false end.

Definition str (v : pyval number) : string :=
  match v with
  | PNone => "None"
  | PNum (Num z) => pretty z
  | PNum NaN => "nan"
  | PStr s => s
  | PList _ => "[...]"
  | PArray _ => "[...]"
  | PTimestamp t => "Timestamp(" +:+ pretty (pd.value t) +:+ ")"
  | PSource c =>
      "SourceContext(source='" +:+ source c +:+ "', row=" +:+ pretty (row c) +:+ ")"
  end.

(** *** Frequency strings *)

Definition digit_of (c : ascii) : option Z :=
  let n := Z.of_nat (nat_of_ascii c) in
  if (48 <=? n) && (n <=? 57) then Some (n - 48) else None.

(** Reads the leading decimal digits of a frequency string: the digits read
    so far as a number (if any) and the remaining text. *)
Fixpoint split_multiple (acc : option Z) (s : string) : option Z * string :=
  match s with
  | EmptyString => (acc, EmptyString)
  | String c r =>
      match digit_of c with
      | Some d => split_multiple (Some (10 * default 0 acc + d)) r
      | None => (acc, s)
      end
  end.

(** A leading sign: the factor it stands for, whether there was one, and
    the text after it. *)
Definition split_sign (s : string) : Z * bool * string :=
  match s with
  | String c r =>
      if Ascii.eqb c "-" then (-1, true, r)
      else if Ascii.eqb c "+" then (1, true, r)
      else (1, false, s)
  | EmptyString => (1, false, s)
  end.

Definition anchored_week (n : Z) (code : string) : option pd.offset :=
  if decide (code = "W") then Some (pd.Week n pd.SUN)
  else if decide (code = "W-MON") then Some (pd.Week n pd.MON)
  else if decide (code = "W-TUE") then Some (pd.Week n pd.TUE)
  else if decide (code = "W-WED") then Some (pd.Week n pd.WED)
  else if decide (code = "W-THU") then Some (pd.Week n pd.THU)
  else if decide (code = "W-FRI") then Some (pd.Week n pd.FRI)
  else if decide (code = "W-SAT") then Some (pd.Week n pd.SAT)
  else if decide (code = "W-SUN") then Some (pd.Week n pd.SUN)
  else None.

Definition fixed_unit (code : string) : option pd.tick :=
  if decide (code = "D") then Some pd.Day
  else if decide (code = "H") then Some pd.Hour
  else if decide (code = "T") then Some pd.Minute
  else if decide (code = "min") then Some pd.Minute
  else if decide (code = "S") then Some pd.Second
  else if decide (code = "L") then Some pd.Milli
  else if decide (code = "ms") then Some pd.Milli
  else if decide (code = "U") then Some pd.Micro
  else if decide (code = "us") then Some pd.Micro
  else if decide (code = "N") then Some pd.Nano
  else None.

(** The other calendar rules this runtime reads, by canonical code. *)
Definition calendar_codes : list string :=
  ["MS"; "BM"; "BMS"; "SM"; "SMS"; "Q"; "QS"; "BQ"; "BQS"; "A"; "AS"; "BA"; "BAS"].

(** The frequency strings this runtime reads: an optional signed multiple
    followed by one of the usual rule aliases. *)
Definition to_offset (s : string) : option pd.offset :=
  let '(sign, signed, body) := split_sign s in
  let '(m, code) := split_multiple None body in
  if signed && negb (bool_decide (is_Some m)) then None
  else
    let n := sign * default 1 m in
    match fixed_unit code with
    | Some u => Some (pd.Tick n u)
    | None =>
        if decide (code = "M") then Some (pd.MonthEnd n)
        else if decide (code = "B") then Some (pd.BusinessDay n)
        else match anchored_week n code with
             | Some o => Some o
             | None =>
                 if decide (code = "Y") then Some (pd.Calendar n "A")
                 else if decide (code ∈ calendar_codes) then Some (pd.Calendar n code)
                 else None
             end
    end.

Lemma anchored_week_inv n code o :
  anchored_week n code = Some o → ∃ a, o = pd.Week n a.
Proof.
  unfold anchored_week. repeat case_decide; intros [= <-]; eauto.
Qed.

(** None of the other calendar rules goes by the name of the month-end or
    of the Sunday-anchored weekly rule. *)
Lemma to_offset_names s n c :
  to_offset s = Some (pd.Calendar n c) → c ∉ ["M"; "W-SUN"].
Proof.
  unfold to_offset. destruct (split_sign s) as [[sign signed] body].
  destruct (split_multiple None body) as [m code].
  destruct (signed && negb (bool_decide (is_Some m))); [discriminate|].
  destruct (fixed_unit code); [discriminate|].
  case_decide; [discriminate|]. case_decide; [discriminate|].
  destruct (anchored_week _ code) as [o'|] eqn:Ew.
  { intros [= ->]. apply anchored_week_inv in Ew as [a Ha]. discriminate Ha. }
  case_decide.
  { intros [= _ <-]. rewrite !elem_of_cons, elem_of_nil.
    intros [|[|[]]]; discriminate. }
  case_decide as Hc; [|discriminate]. intros [= _ <-].
  unfold calendar_codes in Hc. intros Hin.
  rewrite !elem_of_cons, elem_of_nil in Hin.
  rewrite !elem_of_cons, elem_of_nil in Hc.
  destruct Hin as [->|[->|[]]]; [done|].
  repeat destruct Hc as [Hc|Hc]; try discriminate; done.
Qed.

(** *** The wording of messages *)

(** The class of an offset and the attributes pandas prints after it. *)
Definition rule_text (o : pd.offset) : string * string :=
  match o with
  | pd.Tick _ u =>
      (match u with
       | pd.Day => "Day" | pd.Hour => "Hour" | pd.Minute => "Minute"
       | pd.Second => "Second" | pd.Milli => "Milli" | pd.Micro => "Micro"
       | pd.Nano => "Nano"
       end, "")
  | pd.MonthEnd _ => ("MonthEnd", "")
  | pd.Week _ a => ("Week", ": weekday=" +:+ pretty (pd.weekday_num a))
  | pd.BusinessDay _ => ("BusinessDay", "")
  | pd.Calendar _ c =>
      if decide (c = "MS") then ("MonthBegin", "")
      else if decide (c = "BM") then ("BusinessMonthEnd", "")
      else if decide (c = "BMS") then ("BusinessMonthBegin", "")
      else if decide (c = "SM") then ("SemiMonthEnd", ": day_of_month=15")
      else if decide (c = "SMS") then ("SemiMonthBegin", ": day_of_month=15")
      else if decide (c = "Q") then ("QuarterEnd", ": startingMonth=12")
      else if decide (c = "QS") then ("QuarterBegin", ": startingMonth=1")
      else if decide (c = "BQ") then ("BQuarterEnd", ": startingMonth=12")
      else if decide (c = "BQS") then ("BQuarterBegin", ": startingMonth=1")
      else if decide (c = "A") then ("YearEnd", ": month=12")
      else if decide (c = "AS") then ("YearBegin", ": month=1")
      else if decide (c = "BA") then ("BYearEnd", ": month=12")
      else if decide (c = "BAS") then ("BYearBegin", ": month=1")
      else ("DateOffset", "")
  end.

(** [repr(offset)]. *)
Definition offset_repr (o : pd.offset) : string :=
  let n := pd.multiple o in
  let '(class, attributes) := rule_text o in
  "<" +:+ (if n =? 1 then "" else pretty n +:+ " * ") +:+ class
  +:+ (if Z.abs n =? 1 then "" else "s") +:+ attributes +:+ ">".

Definition two_digits (z : Z) : string :=
  if z <? 10 then "0" +:+ pretty z else pretty z.

(** A wall-clock reading to the second, as pandas prints it. *)
Definition clock (v : Z) : string :=
  let '(y, m, d) := pd.date_of v in
  let t := pd.time_of_day v / 1000000000 in
  pretty y +:+ "-" +:+ two_digits m +:+ "-" +:+ two_digits d +:+ " "
  +:+ two_digits (t / 3600) +:+ ":" +:+ two_digits (t / 60 mod 60) +:+ ":"
  +:+ two_digits (t mod 60).

Definition fault_text (f : pd.fault) : string :=
  match f with
  | pd.OutOfBounds v _ => "Out of bounds nanosecond timestamp: " +:+ clock v
  | pd.CannotRound v o =>
      "Cannot round " +:+ clock v +:+ " to freq=" +:+ offset_repr o
      +:+ " without overflow"
  | pd.NonFixedFrequency o => offset_repr o +:+ " is a non-fixed frequency"
  | pd.DivisionByZero => "integer division or modulo by zero"
  end.

(** A shape as numpy prints it in a message: [(3,)], [(1,2)]. *)
Definition shape_text (shape : list nat) : string :=
  match shape with
  | [n] => "(" +:+ pretty n +:+ ",)"
  | _ => "(" +:+ String.concat "," (map pretty shape) +:+ ")"
  end.

Definition broadcast_text (original requested : list nat) : string :=
  "operands could not be broadcast together with remapped shapes "
  +:+ "[original->remapped]: " +:+ shape_text original
  +:+ "  and requested shape " +:+ shape_text requested.

(** *** Timestamps *)

Fixpoint digits (acc : Z) (s : string) : option Z :=
  match s with
  | EmptyString => Some acc
  | String c r =>
      match digit_of c with
      | Some d => digits (10 * acc + d) r
      | None => None
      end
  end.

Definition field (s : string) (start len : nat) : option Z :=
  digits 0 (substring start len s).

Definition char_is (s : string) (i : nat) (c : ascii) : bool :=
  bool_decide (String.get i s = Some c).

Definition parse_date (s : string) : option Z :=
  y ← field s 0 4;
  m ← field s 5 2;
  d ← field s 8 2;
  if char_is s 4 "-" && char_is s 7 "-"
     && (1 <=? m) && (m <=? 12) && (1 <=? d) && (d <=? pd.days_in_month y m)
  then Some ((pd.ymd2ord y m d - pd.epoch_ordinal) * pd.DAY)
  else None.

Definition parse_time (s : string) : option Z :=
  h ← field s 11 2;
  m ← field s 14 2;
  sec ← field s 17 2;
  if char_is s 10 "T" && char_is s 13 ":" && char_is s 16 ":"
     && (h <? 24) && (m <? 60) && (sec <? 60)
  then Some ((h * 3600 + m * 60 + sec) * 1000000000)
  else None.

Definition parse_zone (s : string) : option Z :=
  h ← field s 20 2;
  m ← field s 23 2;
  if char_is s 22 ":" && (h <? 24) && (m <? 60) then
    if char_is s 19 "+" then Some (h * 60 + m)
    else if char_is s 19 "-" then Some (- (h * 60 + m))
    else None
  else None.

Definition parse_iso (s : string) : option (Z * option Z) :=
  let n := String.length s in
  if bool_decide (n = 10%nat) then
    d ← parse_date s; Some (d, None)
  else if bool_decide (n = 19%nat) then
    d ← parse_date s; t ← parse_time s; Some (d + t, None)
  else if bool_decide (n = 25%nat) then
    d ← parse_date s; t ← parse_time s; z ← parse_zone s; Some (d + t, Some z)
  else None.

Definition parse (v : pyval number) : result (Z * option Z) :=
  match v with
  | PStr s =>
      match parse_iso s with
      | Some p => Ok p
      | None => Raise (ValueError ("could not convert string to Timestamp"))
      end
  | PNum (Num z) => Ok (z, None)
  | PTimestamp t => Ok (pd.value t, pd.tz t)
  | PNone | PNum NaN => Raise (OtherError "'NaTType' object has no attribute 'freq'")
  | _ => Raise (TypeError "Cannot convert input to Timestamp")
  end.

Definition runtime : Runtime := {|
  scalar := number;
  np_element := element;
  np_astype := astype;
  np_isnan := isnan;
  py_str := str;
  pd_parse := parse;
  pd_to_offset := to_offset;
  pd_fault_text := fault_text;
  np_broadcast_text := broadcast_text;
  pd_to_offset_names := to_offset_names
|}.

(** The record of the end-to-end scenario,
    [{"start": "2014-09-07", "target": [0.1, 0.2, 0.3]}] with whole numbers
    for the target values. *)
Definition entry (start : string) (target : list Z)
  : gmap string (pyval (@scalar runtime)) :=
  <["start" := PStr start]>
    (<["target" := PList (map (fun z => PNum (Num z)) target)]> ∅).

End Demo.

(** ** FileDataset.is_valid *)

(** [FileDataset.is_valid], on the final component of the path. *)
Definition is_valid (path_name : string) : bool :=
  negb (String.prefix "." path_name || String.eqb path_name "_SUCCESS").

(** ** TimeSeriesItem and MetaData *)

Record BasicFeatureInfo : Type := mkBasicFeatureInfo {
  bfi_name : string
}.

Record CategoricalFeatureInfo : Type := mkCategoricalFeatureInfo {
  cfi_name : string;
  cardinality : string
}.

Record MetaData : Type := mkMetaData {
  md_freq : string;
  md_target : option BasicFeatureInfo;
  md_feat_static_cat : list CategoricalFeatureInfo;
  md_feat_static_real : list BasicFeatureInfo;
  md_feat_dynamic_real : list BasicFeatureInfo;
  md_feat_dynamic_cat : list CategoricalFeatureInfo;
  md_prediction_length : option Z
}.

(** The truth value of a Python list: it is not empty. *)
Definition truthy {A : Type} (l : list A) : bool :=
  match l with [] => false | _ :: _ => true end.

Section Items.

Context {RT : Runtime}.

(** A [TimeSeriesItem]; the feature lists are the Python lists as they
    are. *)
Record TimeSeriesItem : Type := mkTimeSeriesItem {
  tsi_start : pd.Timestamp;
  tsi_target : np.ndarray scalar;
  tsi_item : option string;
  tsi_feat_static_cat : list (pyval scalar);
  tsi_feat_static_real : list (pyval scalar);
  tsi_feat_dynamic_cat : list (pyval scalar);
  tsi_feat_dynamic_real : list (pyval scalar)
}.

(** [TimeSeriesItem.gluontsify]. *)
Definition gluontsify (self : TimeSeriesItem) (metadata : MetaData) : DataEntry :=
  let data : DataEntry :=
    <["target" := PArray (tsi_target self)]>
      (<["start" := PTimestamp (tsi_start self)]>
         (<["item" := match tsi_item self with
                      | Some s => PStr s
                      | None => PNone
                      end]> ∅)) in
  let data :=
    if truthy (md_feat_static_cat metadata)
    then <["feat_static_cat" := PList (tsi_feat_static_cat self)]> data
    else data in
  let data :=
    if truthy (md_feat_static_real metadata)
    then <["feat_static_real" := PList (tsi_feat_static_real self)]> data
    else data in
  let data :=
    if truthy (md_feat_dynamic_cat metadata)
    then <["feat_dynamic_cat" := PList (tsi_feat_dynamic_cat self)]> data
    else data in
  let data :=
    if truthy (md_feat_dynamic_real metadata)
    then <["feat_dynamic_real" := PList (tsi_feat_dynamic_real self)]> data
    else data in
  data.

(** ** IdentityPredictor *)

(** Where the slice [a[start:]] of a sequence of [n] elements begins. *)
Definition slice_start (start : Z) (n : nat) : nat :=
  if start <? 0 then Z.to_nat (Z.max 0 (Z.of_nat n + start))
  else Z.to_nat (Z.min (Z.of_nat n) start).

(** [a[start:]] on an array: a slice along the first axis. *)
Definition getitem_from {A : Type} (a : np.ndarray A) (start : Z)
  : result (np.ndarray A) :=
  match np.shape a with
  | [] => Raise (OtherError "IndexError: too many indices for array")
  | n :: rest =>
      let s := slice_start start n in
      Ok (np.mkArray ((n - s)%nat :: rest)
                     (drop (s * foldr Nat.mul 1%nat rest) (np.flat a)))
  end.

(** One row of [k] elements read as a row of [p]: as it is when [k = p],
    its single element repeated when [k = 1]. *)
Definition stretch {A : Type} (k p : nat) (row : list A) : option (list A) :=
  if bool_decide (k = p) then Some row
  else if bool_decide (k = 1%nat) then Some (flat_map (replicate p) row)
  else None.

(** [np.broadcast_to(array, shape=(n, p))]. *)
Definition broadcast_to {A : Type} (a : np.ndarray A) (n p : Z)
  : result (np.ndarray A) :=
  if (n <? 0) || (p <? 0) then
    Raise (ValueError "all elements of broadcast shape must be non-negative")
  else
    let n := Z.to_nat n in
    let p := Z.to_nat p in
    let refused := Raise (ValueError (np_broadcast_text (np.shape a) [n; p])) in
    match np.shape a with
    | [] => Ok (np.mkArray [n; p] (flat_map (replicate (n * p)) (np.flat a)))
    | [k] =>
        match stretch k p (np.flat a) with
        | Some row => Ok (np.mkArray [n; p] (concat (replicate n row)))
        | None => refused
        end
    | [j; k] =>
        match mapM (stretch k p) (rows j k (np.flat a)) with
        | Some stretched =>
            if bool_decide (j = n) then Ok (np.mkArray [n; p] (concat stretched))
            else if bool_decide (j = 1%nat)
                 then Ok (np.mkArray [n; p] (concat (replicate n (concat stretched))))
                 else refused
        | None => refused
        end
    | _ =>
        Raise (ValueError "input operand has more dimensions than allowed by the axis remapping")
    end.

(** A [SampleForecast], by the arguments it is built from. *)
Record SampleForecast : Type := mkSampleForecast {
  samples : np.ndarray scalar;
  start_date : pd.Timestamp;
  sf_freq : string;
  item_id : pyval scalar
}.

(** [SampleForecast.__init__], of [gluonts.model.forecast]: it asserts that
    the samples have two or three dimensions, that the start date is a
    timestamp and that the frequency is a string.  The samples handed over
    here always have two dimensions and the frequency is a string, so the
    assertion on the start date is the one that can fail. *)
Definition SampleForecast_init (samples : np.ndarray scalar)
  (start_date : pyval scalar) (freq : string) (item_id : pyval scalar)
  : result SampleForecast :=
  match start_date with
  | PTimestamp t => Ok (mkSampleForecast samples t freq item_id)
  | _ => Raise (OtherError "AssertionError: start_date should be a pandas Timestamp object")
  end.

Record IdentityPredictor : Type := mkIdentityPredictor {
  ip_prediction_length : Z;
  ip_freq : string;
  ip_num_samples : Z
}.

(** [item[key]]. *)
Definition getitem (item : DataEntry) (key : string) : result (pyval scalar) :=
  match item !! key with
  | Some v => Ok v
  | None => Raise (KeyError key)
  end.

(** The body of the loop of [IdentityPredictor.predict] for one item of the
    dataset.  Items come from a [Dataset], whose targets are arrays; a
    target of another kind is not modelled. *)
Definition IdentityPredictor_forecast (self : IdentityPredictor) (item : DataEntry)
  : result SampleForecast :=
  let* target := getitem item "target" in
  match target with
  | PArray a =>
      let* prediction := getitem_from a (- ip_prediction_length self) in
      let* samples :=
        broadcast_to (np.expand_dims prediction)
                     (ip_num_samples self) (ip_prediction_length self) in
      let* start_date := getitem item "start" in
      SampleForecast_init samples start_date (ip_freq self)
        (if bool_decide (is_Some (item !! "id"))
         then default PNone (item !! "id") else PNone)
  | _ => Raise (OtherError "target is not an array")
  end.

End Items.

(** * Properties *)

(** ** The field coercer *)

Section FieldCoercer.

Context {RT : Runtime}.

(** What [__call__] does with a value that is present and not [None], once
    numpy has built the array. *)
Lemma ProcessTimeSeriesField_call_array self data v a :
  data !! name self = Some v →
  is_None v = false →
  np_asarray (dtype self) v = Ok a →
  ProcessTimeSeriesField_call self data =
    let ddiff := req_ndim self - np.ndim a in
    if ddiff =? 1 then Ok (<[name self := PArray (np.expand_dims a)]> data)
    else if negb (ddiff =? 0) then
      Raise (GluonTSDataError (bad_shape_message (req_ndim self) ddiff))
    else Ok (<[name self := PArray a]> data).
Proof.
  intros Hget Hnone Harr. unfold ProcessTimeSeriesField_call.
  rewrite Hget. simpl. rewrite Hnone. simpl.
  rewrite Harr. reflexivity.
Qed.

(** A value that is absent or [None] never reaches numpy. *)
Lemma ProcessTimeSeriesField_call_none self data :
  default PNone (data !! name self) = PNone →
  ProcessTimeSeriesField_call self data =
    if is_required self then
      Raise (GluonTSDataError (missing_field_message (name self)))
    else Ok data.
Proof.
  intros Hv. unfold ProcessTimeSeriesField_call. rewrite Hv. cbn.
  destruct (is_required self); reflexivity.
Qed.

(** C2, as amended: a 1-d array given for a dynamic field is promoted to
    shape [(1, T)]; a 3-d array given for any field, and a 0-d array given
    for a dynamic field, fail with the bad-shape [GluonTSDataError]; a 0-d
    array given for a static field is promoted to shape [(1,)]. *)
Theorem coercion_by_rank name is_required is_static is_cat data v a :
  let self := ProcessTimeSeriesField_init name is_required is_static is_cat in
  data !! name = Some v →
  is_None v = false →
  np_asarray (dtype self) v = Ok a →
  (∀ T, is_static = false → np.shape a = [T] →
     ProcessTimeSeriesField_call self data
     = Ok (<[name := PArray (np.mkArray [1%nat; T] (np.flat a))]> data))
  ∧ (np.ndim a = 3 →
     ProcessTimeSeriesField_call self data
     = Raise (GluonTSDataError
                (bad_shape_message (req_ndim self) (req_ndim self - 3))))
  ∧ (is_static = false → np.ndim a = 0 →
     ProcessTimeSeriesField_call self data
     = Raise (GluonTSDataError (bad_shape_message 2 2)))
  ∧ (is_static = true → np.ndim a = 0 →
     ProcessTimeSeriesField_call self data
     = Ok (<[name := PArray (np.mkArray [1%nat] (np.flat a))]> data)).
Proof.
  intros self Hget Hnone Harr.
  pose proof (ProcessTimeSeriesField_call_array self data v a Hget Hnone Harr) as Hcall.
  cbn zeta in Hcall. repeat split.
  - intros T -> Hshape. rewrite Hcall.
    unfold np.ndim, np.expand_dims. rewrite Hshape. reflexivity.
  - intros Hdim. rewrite Hcall, Hdim.
    destruct is_static; reflexivity.
  - intros -> Hdim. rewrite Hcall, Hdim. reflexivity.
  - intros -> Hdim. rewrite Hcall, Hdim. cbn.
    unfold np.ndim in Hdim. destruct a as [[|n sh] fl]; [reflexivity | discriminate].
Qed.

(** C3: whenever the coercion of a present value fails on its rank, the
    message gives the expected rank and then, after "got", the difference
    between the expected and the actual rank, which is never the actual
    rank. *)
Theorem rank_error_reports_difference name is_required is_static is_cat data v a e :
  let self := ProcessTimeSeriesField_init name is_required is_static is_cat in
  data !! name = Some v →
  is_None v = false →
  np_asarray (dtype self) v = Ok a →
  ProcessTimeSeriesField_call self data = Raise e →
  e = GluonTSDataError
        (bad_shape_message (req_ndim self) (req_ndim self - np.ndim a))
  ∧ req_ndim self - np.ndim a ≠ np.ndim a.
Proof.
  intros self Hget Hnone Harr.
  rewrite (ProcessTimeSeriesField_call_array self data v a Hget Hnone Harr).
  cbn zeta.
  destruct (Z.eqb_spec (req_ndim self - np.ndim a) 1) as [|H1]; [discriminate|].
  destruct (Z.eqb_spec (req_ndim self - np.ndim a) 0) as [|H0]; [discriminate|].
  cbn [negb]. intros [= <-]. split; [reflexivity|].
  subst self. cbn in *. destruct is_static; lia.
Qed.

(** C10: a field bound to [None] is handled as an absent one: an optional
    field lets the dictionary through as it is (the key stays, bound to
    [None]) and a required one raises the missing-field error. *)
Theorem none_is_absent self data :
  data !! name self = None ∨ data !! name self = Some PNone →
  ProcessTimeSeriesField_call self data =
    if is_required self then
      Raise (GluonTSDataError (missing_field_message (name self)))
    else Ok data.
Proof.
  intros H. apply ProcessTimeSeriesField_call_none.
  destruct H as [-> | ->]; reflexivity.
Qed.

End FieldCoercer.

(** ** The object store and the memory-backed dataset *)

Section Datasets.

Context {RT : Runtime}.

Implicit Types (σ : store) (l : loc) (data : DataEntry).

Lemma setitem_lookup σ l key v l' :
  setitem l key v σ !! l' =
    if bool_decide (l = l') then insert key v <$> σ !! l' else σ !! l'.
Proof.
  unfold setitem. case_bool_decide as Hl.
  - subst l'. destruct (σ !! l) eqn:E; cbn.
    + by rewrite lookup_insert_eq.
    + by rewrite E.
  - destruct (σ !! l); [by rewrite lookup_insert_ne | done].
Qed.

Lemma in_place_returns t l σ σ' l' :
  in_place t l σ = (σ', Ok l') → l' = l.
Proof.
  unfold in_place. destruct (σ !! l); [|discriminate].
  destruct (t _); [|discriminate]. by intros [= _ ->].
Qed.

(** The record processor hands back the object it was given. *)
Lemma ProcessDataEntry_run_returns trans l σ σ' l' :
  ProcessDataEntry_run trans l σ = (σ', Ok l') → l' = l.
Proof.
  revert l σ. induction trans as [|t rest IH]; intros l σ; cbn.
  - by intros [= _ ->].
  - destruct (in_place t l σ) as [σ1 [l1|e]] eqn:E; [|discriminate].
    apply in_place_returns in E. subst l1. apply IH.
Qed.

(** On the store, the record processor is the dictionary-level one run on
    the object's contents, written back on success. *)
Lemma ProcessDataEntry_run_call trans l σ data :
  σ !! l = Some data →
  match ProcessDataEntry_call trans data with
  | Ok data' => ProcessDataEntry_run trans l σ = (<[l := data']> σ, Ok l)
  | Raise e => ∃ σ', ProcessDataEntry_run trans l σ = (σ', Raise e)
  end.
Proof.
  revert σ data. induction trans as [|t rest IH]; intros σ data Hl; cbn.
  - by rewrite insert_id.
  - unfold in_place. rewrite Hl. destruct (t data) as [d1|e]; cbn; [|eauto].
    specialize (IH (<[l := d1]> σ) d1 (lookup_insert_eq _ _ _)).
    destruct (ProcessDataEntry_call rest d1); [|done].
    by rewrite IH, insert_insert_eq.
Qed.

Lemma process_each_returns process ls σ σ' ls' :
  (∀ l σ σ' l', process l σ = (σ', Ok l') → l' = l) →
  process_each process ls σ = (σ', Ok ls') → ls' = ls.
Proof.
  intros Hp. revert σ σ' ls'. induction ls as [|l ls IH]; intros σ σ' ls'; cbn.
  - by intros [= _ <-].
  - destruct (process l σ) as [σ1 [l1|e]] eqn:E1; [|discriminate].
    destruct (process_each process ls σ1) as [σ2 [ls2|e]] eqn:E2; [|discriminate].
    intros [= _ <-]. apply Hp in E1. apply IH in E2. by subst.
Qed.

(** A failing list comprehension stops at the first object whose processing
    raises, with that exception; the objects before it were all processed. *)
Lemma process_each_raises process ls σ σ' e :
  (∀ l σ σ' l', process l σ = (σ', Ok l') → l' = l) →
  process_each process ls σ = (σ', Raise e) →
  ∃ pre l post σ1,
    ls = pre ++ l :: post
    ∧ process_each process pre σ = (σ1, Ok pre)
    ∧ process l σ1 = (σ', Raise e).
Proof.
  intros Hp. revert σ. induction ls as [|l ls IH]; intros σ; cbn; [discriminate|].
  destruct (process l σ) as [σ1 [l1|e1]] eqn:E1.
  - destruct (process_each process ls σ1) as [σ2 [ls2|e2]] eqn:E2; [discriminate|].
    intros [= -> ->]. destruct (IH _ E2) as (pre & l0 & post & σ3 & -> & Hpre & Hl0).
    exists (l :: pre), l0, post, σ3. split; [done|]. split; [|done].
    cbn. rewrite E1, Hpre. apply Hp in E1. by subst.
  - intros [= -> ->]. exists [], l, ls, σ. by rewrite E1.
Qed.

Lemma serialize_data_entry_lookup data key :
  serialize_data_entry data !! key =
    match data !! key with
    | Some v => if is_None v then None else Some (serialize_field v)
    | None => None
    end.
Proof.
  unfold serialize_data_entry. rewrite lookup_omap.
  by destruct (data !! key).
Qed.

(** The store a full pass leaves behind: every object is as before, except
    that [source] holds the row number of its last occurrence. *)
Lemma for_each_store_lookup {B : Type} (body : DataEntry → B) g σ l :
  (for_each body g σ).2 !! l =
    (fun d => match final_row g l with
              | Some r => <["source" := stamp r]> d
              | None => d
              end) <$> σ !! l.
Proof.
  revert σ. induction g as [|[r l0] g IH]; intros σ; cbn.
  - by destruct (σ !! l).
  - destruct (for_each body g _) as [out σ2] eqn:E. cbn.
    specialize (IH (setitem l0 "source" (stamp r) σ)).
    rewrite E in IH. cbn in IH. rewrite IH.
    rewrite setitem_lookup.
    destruct (σ !! l) as [d|] eqn:El; case_bool_decide; cbn;
      destruct (final_row g l); try done.
    by rewrite insert_insert_eq.
Qed.

Lemma final_row_not_in k (ls : list loc) l :
  l ∉ ls → final_row (enumerate k ls) l = None.
Proof.
  revert k. induction ls as [|l0 ls IH]; intros k Hl; cbn; [done|].
  apply not_elem_of_cons in Hl as [Hne Hl]. rewrite (IH _ Hl).
  by rewrite bool_decide_eq_false_2.
Qed.

Lemma insert_source_agree (d d' : DataEntry) v :
  delete "source" d' = delete "source" d →
  <["source" := v]> d' = <["source" := v]> d.
Proof.
  intros H. rewrite <- (insert_delete_eq d'), <- (insert_delete_eq d). by rewrite H.
Qed.

(** The [i]-th dictionary handed to the loop body is the [i]-th object of
    the list, carrying row number [start + i]. *)
Lemma for_each_nth {B : Type} (body : DataEntry → B) (ls : list loc) k σ i l d d0 :
  ls !! i = Some l →
  σ !! l = Some d0 →
  delete "source" d0 = delete "source" d →
  (for_each body (enumerate k ls) σ).1 !! i
  = Some (body (<["source" := stamp (k + Z.of_nat i)]> d)).
Proof.
  revert k σ i d0. induction ls as [|l0 ls IH]; intros k σ i d0 Hi Hl Hd; [done|].
  cbn. destruct (for_each body (enumerate (k + 1) ls) _) as [out σ2] eqn:E.
  destruct i as [|i]; cbn in Hi |- *.
  - injection Hi as ->. rewrite setitem_lookup, bool_decide_eq_true_2 by done.
    rewrite Hl. cbn. rewrite Z.add_0_r. f_equal. f_equal.
    by apply insert_source_agree.
  - pose proof (IH (k + 1) (setitem l0 "source" (stamp k) σ) i) as IH'.
    rewrite E in IH'. cbn in IH'.
    replace (k + Z.of_nat (S i)) with (k + 1 + Z.of_nat i) by lia.
    destruct (decide (l0 = l)) as [->|Hne].
    + apply (IH' (<["source" := stamp k]> d0)); [done| |].
      * by rewrite setitem_lookup, bool_decide_eq_true_2, Hl.
      * by rewrite delete_insert_eq.
    + apply (IH' d0); [done| |done].
      by rewrite setitem_lookup, bool_decide_eq_false_2.
Qed.

(** The loop takes the entries one [next()] at a time. *)
Lemma for_each_generator_next {B : Type} (body : DataEntry → B) g σ :
  for_each body g σ =
    match generator_next g σ with
    | None => ([], σ)
    | Some (entry, g', σ') =>
        let '(out, σ'') := for_each body g' σ' in
        (body (default ∅ (σ' !! entry)) :: out, σ'')
    end.
Proof. destruct g as [|[row_number data] rest]; reflexivity. Qed.

Lemma for_each_length {B : Type} (body : DataEntry → B) g σ :
  length (for_each body g σ).1 = length g.
Proof.
  revert σ. induction g as [|[r l] g IH]; intros σ; cbn; [done|].
  specialize (IH (setitem l "source" (stamp r) σ)).
  destruct (for_each body g _) as [out σ2]. cbn in *. by rewrite IH.
Qed.

Lemma enumerate_length {A : Type} k (l : list A) : length (enumerate k l) = length l.
Proof. revert k. induction l as [|x l IH]; intros k; cbn; [done|]. by rewrite IH. Qed.

Lemma final_row_last k (ls : list loc) i l :
  ls !! i = Some l →
  (∀ j, (i < j)%nat → ls !! j ≠ Some l) →
  final_row (enumerate k ls) l = Some (k + Z.of_nat i).
Proof.
  revert k i. induction ls as [|l0 ls IH]; intros k i Hi Hlast; [done|].
  cbn. destruct i as [|i]; cbn in Hi.
  - injection Hi as ->. rewrite final_row_not_in.
    + rewrite bool_decide_eq_true_2 by done. f_equal. lia.
    + intros Hin. apply list_elem_of_lookup in Hin as [j Hj].
      by apply (Hlast (S j)); [lia|].
  - rewrite (IH (k + 1) i Hi).
    + f_equal. lia.
    + intros j Hj. apply (Hlast (S j)). lia.
Qed.

Lemma final_row_in k (ls : list loc) l :
  l ∈ ls → ∃ i, ls !! i = Some l ∧ final_row (enumerate k ls) l = Some (k + Z.of_nat i).
Proof.
  revert k. induction ls as [|l0 ls IH]; intros k Hl; [by apply elem_of_nil in Hl|].
  cbn. destruct (decide (l ∈ ls)) as [Hin|Hnin].
  - destruct (IH (k + 1) Hin) as (i & Hi & ->). exists (S i). split; [done|].
    f_equal. lia.
  - apply elem_of_cons in Hl as [->|]; [|done].
    rewrite final_row_not_in by done. rewrite bool_decide_eq_true_2 by done.
    exists 0%nat. split; [done|]. f_equal. lia.
Qed.

(** C1, as amended: serialization keeps every key that is not bound to
    [None], under its serialized value, and drops the keys bound to [None]
    and no others; an entry that carries a source context therefore keeps
    [source], bound to the string form of the context.  [save_datasets]
    writes one line per record of a memory-backed dataset, and the [i]-th
    line is the [i]-th record serialized under the source context of row
    [i + 1]: it has the [source] key, and its other keys are those of the
    serialized record. *)
Theorem saved_lines_carry_source (train : ListDataset) σ :
  (∀ (data : DataEntry) key,
     serialize_data_entry data !! key =
       match data !! key with
       | Some v => if is_None v then None else Some (serialize_field v)
       | None => None
       end)
  ∧ (∀ (data : DataEntry) c,
       data !! "source" = Some (PSource c) →
       serialize_data_entry data !! "source" = Some (JStr (py_str (PSource c))))
  ∧ length (save_datasets_train train σ).1 = length (list_data train)
  ∧ (∀ i l d,
       list_data train !! i = Some l → σ !! l = Some d →
       ∃ line,
         (save_datasets_train train σ).1 !! i = Some line
         ∧ line = serialize_data_entry (<["source" := stamp (Z.of_nat i + 1)]> d)
         ∧ line !! "source" = Some (JStr (py_str (stamp (Z.of_nat i + 1))))
         ∧ ∀ key, key ≠ "source" → line !! key = serialize_data_entry d !! key).
Proof.
  split_and!.
  - apply serialize_data_entry_lookup.
  - intros data c Hc. by rewrite serialize_data_entry_lookup, Hc.
  - unfold save_datasets_train, ListDataset_iter.
    by rewrite for_each_length, enumerate_length.
  - intros i l d Hi Hd. eexists. split_and!; [|reflexivity| |].
    + unfold save_datasets_train, ListDataset_iter.
      rewrite (for_each_nth _ _ 1 σ i l d d Hi Hd eq_refl).
      do 4 f_equal. lia.
    + by rewrite serialize_data_entry_lookup, lookup_insert_eq.
    + intros key Hkey. rewrite !serialize_data_entry_lookup.
      by rewrite lookup_insert_ne.
Qed.

(** C4, as amended: a pass over the dataset leaves the store with the same
    objects, leaves the objects outside the list alone and changes no key of
    a stored record other than [source]; it does write [source] on every
    stored record, leaving there the row number of the record's last
    position in the list; a second pass changes nothing more. *)
Theorem iteration_only_writes_source {B : Type} (body : DataEntry → B)
  (self : ListDataset) σ :
  let σ' := (for_each body (ListDataset_iter self) σ).2 in
  dom σ' = dom σ
  ∧ (∀ l, l ∉ list_data self → σ' !! l = σ !! l)
  ∧ (∀ l d d' key, σ !! l = Some d → σ' !! l = Some d' → key ≠ "source" →
       d' !! key = d !! key)
  ∧ (∀ l d, l ∈ list_data self → σ !! l = Some d →
       ∃ i, list_data self !! i = Some l
            ∧ σ' !! l = Some (<["source" := stamp (Z.of_nat i + 1)]> d))
  ∧ (∀ i l d, list_data self !! i = Some l →
       (∀ j, (i < j)%nat → list_data self !! j ≠ Some l) →
       σ !! l = Some d →
       σ' !! l = Some (<["source" := stamp (Z.of_nat i + 1)]> d))
  ∧ (for_each body (ListDataset_iter self) σ').2 = σ'.
Proof.
  intros σ'. subst σ'. split_and!.
  - apply set_eq. intros l. rewrite !elem_of_dom, for_each_store_lookup.
    by rewrite fmap_is_Some.
  - intros l Hl. rewrite for_each_store_lookup.
    unfold ListDataset_iter. rewrite (final_row_not_in _ _ _ Hl).
    by destruct (σ !! l).
  - intros l d d' key Hd. rewrite for_each_store_lookup, Hd. cbn.
    intros [= <-] Hkey. destruct (final_row _ l); [|done].
    by rewrite lookup_insert_ne.
  - intros l d Hl Hd. rewrite for_each_store_lookup, Hd. cbn.
    unfold ListDataset_iter.
    destruct (final_row_in 1 _ l Hl) as (i & Hi & ->).
    exists i. split; [done|]. do 3 f_equal. lia.
  - intros i l d Hi Hlast Hd. rewrite for_each_store_lookup, Hd. cbn.
    unfold ListDataset_iter. rewrite (final_row_last 1 _ i l Hi Hlast).
    do 3 f_equal. lia.
  - apply map_eq. intros l. rewrite !for_each_store_lookup.
    destruct (σ !! l) as [d|]; [|done]. cbn.
    destruct (final_row _ l); [|done]. by rewrite insert_insert_eq.
Qed.

Lemma in_place_allocated t l σ σ' r l' :
  in_place t l σ = (σ', r) → is_Some (σ !! l') → is_Some (σ' !! l').
Proof.
  unfold in_place. destruct (σ !! l); [|by intros [= <- _]].
  destruct (t _); intros [= <- _]; [|done].
  intros H. rewrite lookup_insert. by case_decide.
Qed.

Lemma ProcessDataEntry_run_allocated trans l σ σ' r l' :
  ProcessDataEntry_run trans l σ = (σ', r) →
  is_Some (σ !! l') → is_Some (σ' !! l').
Proof.
  revert l σ. induction trans as [|t rest IH]; intros l σ; cbn.
  - by intros [= <- _].
  - destruct (in_place t l σ) as [σ1 [l1|e]] eqn:E.
    + intros Hrun H. eapply IH; [done|]. by eapply in_place_allocated.
    + intros [= <- _] H. by eapply in_place_allocated.
Qed.

(** C8, as amended: construction processes the records in order; when one
    fails, construction fails with the exception of the first failing
    record and yields no dataset; otherwise the dataset holds the very
    objects it was given, in order, and a pass over it hands out the [i]-th
    one with row number [i + 1] under [source]. *)
Theorem ListDataset_construction data_iter freq one_dim_target σ :
  let process :=
    ProcessDataEntry_run (ProcessDataEntry_init freq one_dim_target) in
  match ListDataset_init data_iter freq one_dim_target σ with
  | (σ', Raise e) =>
      ∃ pre l post σ1,
        data_iter = pre ++ l :: post
        ∧ process_each process pre σ = (σ1, Ok pre)
        ∧ process l σ1 = (σ', Raise e)
  | (σ', Ok self) =>
      list_data self = data_iter
      ∧ process_each process data_iter σ = (σ', Ok data_iter)
      ∧ ∀ (B : Type) (body : DataEntry → B) i l d,
          data_iter !! i = Some l → σ' !! l = Some d →
          (for_each body (ListDataset_iter self) σ').1 !! i
          = Some (body (<["source" := stamp (Z.of_nat i + 1)]> d))
  end.
Proof.
  intros process. unfold ListDataset_init. fold process.
  assert (Hret : ∀ l σ σ' l', process l σ = (σ', Ok l') → l' = l)
    by (intros *; apply ProcessDataEntry_run_returns).
  destruct (process_each process data_iter σ) as [σ' [ls|e]] eqn:E.
  - pose proof (process_each_returns _ _ _ _ _ Hret E) as ->.
    split; [done|]. split; [done|].
    intros B body i l d Hi Hl. unfold ListDataset_iter. cbn.
    rewrite (for_each_nth body data_iter 1 σ' i l d d Hi Hl eq_refl).
    do 4 f_equal. lia.
  - by apply process_each_raises.
Qed.

End Datasets.

(** ** The start field *)

Section StartField.

Context {RT : Runtime}.

(** C9: a record without [start] makes the start-field processor, and with
    it the record processor, raise [KeyError], which is not a
    [GluonTSDataError]. *)
Theorem missing_start_raises_KeyError freq one_dim_target (data : DataEntry) :
  data !! "start" = None →
  ProcessStartField_call (mkProcessStartField "start" freq) data
  = Raise (KeyError "start")
  ∧ ProcessDataEntry_call (ProcessDataEntry_init freq one_dim_target) data
    = Raise (KeyError "start")
  ∧ is_DataError (KeyError "start") = false.
Proof.
  intros Hstart.
  assert (ProcessStartField_call (mkProcessStartField "start" freq) data
          = Raise (KeyError "start")) as Hcall.
  { unfold ProcessStartField_call. cbn. by rewrite Hstart. }
  split; [done|]. split; [|done].
  cbn. by rewrite Hcall.
Qed.

End StartField.

(** ** The calendar *)

Module Calendar.

Import pd.

Lemma month_day_table leapyear :
  forallb (month_day_ok leapyear) (below 365) = true.
Proof. destruct leapyear; vm_compute; reflexivity. Qed.

Lemma in_below n z : 0 <= z < Z.of_nat n → In z (below n).
Proof.
  intros H. unfold below. apply in_map_iff. exists (Z.to_nat z).
  split; [lia|]. apply in_seq. lia.
Qed.

Lemma days_before_year_succ y :
  days_before_year (y + 1) = days_before_year y + 365 + (if is_leap y then 1 else 0).
Proof.
  unfold days_before_year, is_leap. cbn zeta.
  replace (y + 1 - 1) with y by lia.
  destruct (Z.eqb_spec (y mod 4) 0), (Z.eqb_spec (y mod 100) 0), (Z.eqb_spec (y mod 400) 0); cbn;
  Z.div_mod_to_equations; lia.
Qed.

Lemma days_before_year_cycle q y :
  days_before_year (400 * q + y) = 146097 * q + days_before_year y.
Proof. unfold days_before_year. cbn zeta. Z.div_mod_to_equations. lia. Qed.

Lemma is_leap_cycle q y : is_leap (400 * q + y) = is_leap y.
Proof.
  unfold is_leap.
  replace ((400 * q + y) mod 4) with (y mod 4) by (Z.div_mod_to_equations; lia).
  replace ((400 * q + y) mod 100) with (y mod 100) by (Z.div_mod_to_equations; lia).
  replace ((400 * q + y) mod 400) with (y mod 400) by (Z.div_mod_to_equations; lia).
  reflexivity.
Qed.

Lemma year_of_cycle a b c :
  0 <= a <= 3 → 0 <= b <= 24 → 0 <= c <= 3 →
  let y := 1 + a * 100 + b * 4 + c in
  days_before_year y = 36524 * a + 1461 * b + 365 * c
  ∧ is_leap y = (c =? 3) && (negb (b =? 24) || (a =? 3)).
Proof.
  intros Ha Hb Hc y. subst y. split.
  - unfold days_before_year. cbn zeta. Z.div_mod_to_equations. lia.
  - unfold is_leap.
    destruct (Z.eqb_spec c 3), (Z.eqb_spec b 24), (Z.eqb_spec a 3); cbn;
    repeat match goal with |- context [?x =? 0] => destruct (Z.eqb_spec x 0) end; cbn; try reflexivity;
    exfalso; Z.div_mod_to_equations; lia.
Qed.

Lemma month_day_spec leapyear n :
  0 <= n < 365 →
  let '(m, d) := month_day n leapyear in
  1 <= m <= 12
  ∧ 1 <= d <= (if (m =? 2) && leapyear then 29 else month_length m)
  ∧ month_start m + (if (2 <? m) && leapyear then 1 else 0) + d = n + 1.
Proof.
  intros Hn.
  pose proof (proj1 (forallb_forall _ _) (month_day_table leapyear) n
                (in_below 365 n ltac:(lia))) as H.
  unfold month_day_ok in H. destruct (month_day n leapyear) as [m d].
  repeat (apply andb_prop in H as [H ?]). lia.
Qed.

Lemma cycle_ymd_spec r :
  0 <= r < 146097 →
  let '(y, m, d) := cycle_ymd r in
  ymd2ord y m d = r + 1 ∧ 1 <= m <= 12 ∧ 1 <= d <= days_in_month y m.
Proof.
  intros Hr. unfold cycle_ymd. cbn zeta.
  pose proof (Z.div_mod r 36524 ltac:(lia)) as Ea.
  pose proof (Z.mod_pos_bound r 36524 ltac:(lia)) as Ba.
  set (a := r / 36524) in *. set (r1 := r mod 36524) in *.
  pose proof (Z.div_mod r1 1461 ltac:(lia)) as Eb.
  pose proof (Z.mod_pos_bound r1 1461 ltac:(lia)) as Bb.
  set (b := r1 / 1461) in *. set (r2 := r1 mod 1461) in *.
  pose proof (Z.div_mod r2 365 ltac:(lia)) as Ec.
  pose proof (Z.mod_pos_bound r2 365 ltac:(lia)) as Bc.
  set (c := r2 / 365) in *. set (n := r2 mod 365) in *.
  assert (0 <= a <= 4) as Ha by lia.
  assert (0 <= b <= 24) as Hb by lia.
  assert (0 <= c <= 4) as Hc by lia.
  destruct (Z.eqb_spec c 4) as [Hc4|Hc4]; cbn [orb].
  - assert (b <= 23) by lia. assert (a <= 3) by lia.
    destruct (year_of_cycle a b 3 ltac:(lia) ltac:(lia) ltac:(lia)) as [Hy Hl].
    cbn zeta in Hy, Hl.
    replace (1 + a * 100 + b * 4 + c - 1) with (1 + a * 100 + b * 4 + 3) by lia.
    unfold ymd2ord, days_before_month, days_in_month. rewrite Hy, Hl.
    replace (b =? 24) with false by (symmetry; apply Z.eqb_neq; lia).
    cbn. lia.
  - destruct (Z.eqb_spec a 4) as [Ha4|Ha4].
    + assert (r = 146096) as -> by lia. vm_compute. repeat split; congruence.
    + destruct (year_of_cycle a b c ltac:(lia) ltac:(lia) ltac:(lia)) as [Hy Hl].
      cbn zeta in Hy, Hl.
      pose proof (month_day_spec ((c =? 3) && (negb (b =? 24) || (a =? 3))) n ltac:(lia)) as Hm.
      destruct (month_day n _) as [m d].
      unfold ymd2ord, days_before_month, days_in_month. rewrite Hy, Hl. lia.
Qed.

Lemma days_in_month_cycle q y m :
  days_in_month (400 * q + y) m = days_in_month y m.
Proof. unfold days_in_month. by rewrite is_leap_cycle. Qed.

Lemma ymd2ord_cycle q y m d :
  ymd2ord (400 * q + y) m d = 146097 * q + ymd2ord y m d.
Proof.
  unfold ymd2ord, days_before_month.
  rewrite days_before_year_cycle, is_leap_cycle. lia.
Qed.

(** Every day number is the day number of the date it is mapped to, and that
    date exists. *)
Lemma ord2ymd_spec n :
  let '(y, m, d) := ord2ymd n in
  ymd2ord y m d = n ∧ 1 <= m <= 12 ∧ 1 <= d <= days_in_month y m.
Proof.
  unfold ord2ymd. cbn zeta.
  pose proof (Z.div_mod (n - 1) 146097 ltac:(lia)) as E.
  pose proof (Z.mod_pos_bound (n - 1) 146097 ltac:(lia)) as B.
  pose proof (cycle_ymd_spec _ B) as H.
  destruct (cycle_ymd _) as [[y m] d].
  rewrite ymd2ord_cycle, days_in_month_cycle. lia.
Qed.

Lemma days_before_year_mono y y' :
  y <= y' → days_before_year y <= days_before_year y'.
Proof. unfold days_before_year. cbn zeta. intros H. Z.div_mod_to_equations. lia. Qed.

Lemma month_length_bounds m : 28 <= month_length m <= 31.
Proof.
  unfold month_length.
  repeat match goal with |- context [?x =? ?y] => destruct (Z.eqb_spec x y) end; cbn; lia.
Qed.

Lemma days_in_month_bounds y m : 28 <= days_in_month y m <= 31.
Proof.
  unfold days_in_month. pose proof (month_length_bounds m).
  destruct (_ && _); lia.
Qed.

(** Where a month begins, the previous one ends. *)
Lemma days_before_month_succ y m :
  1 <= m < 12 →
  days_before_month y (m + 1) = days_before_month y m + days_in_month y m.
Proof.
  intros Hm. assert (m = 1 ∨ m = 2 ∨ m = 3 ∨ m = 4 ∨ m = 5 ∨ m = 6 ∨ m = 7
                     ∨ m = 8 ∨ m = 9 ∨ m = 10 ∨ m = 11) as Hcase by lia.
  unfold days_before_month, days_in_month.
  destruct (is_leap y);
    repeat (destruct Hcase as [-> | Hcase]; [reflexivity|]); subst; reflexivity.
Qed.

Lemma days_before_month_mono y m m' :
  1 <= m → m < m' → m' <= 12 →
  days_before_month y m + days_in_month y m <= days_before_month y m'.
Proof.
  intros H1 Hlt H12.
  assert (∃ k : nat, m' = m + 1 + Z.of_nat k) as [k ->]
    by (exists (Z.to_nat (m' - m - 1)); lia).
  clear Hlt. induction k as [|k IH].
  - rewrite Z.add_0_r, days_before_month_succ by lia. lia.
  - replace (m + 1 + Z.of_nat (S k)) with ((m + 1 + Z.of_nat k) + 1) by lia.
    rewrite days_before_month_succ by lia.
    pose proof (days_in_month_bounds y (m + 1 + Z.of_nat k)). lia.
Qed.

Lemma days_before_month_year y m :
  1 <= m <= 12 →
  0 <= days_before_month y m
  ∧ days_before_month y m + days_in_month y m
    <= 365 + (if is_leap y then 1 else 0).
Proof.
  intros Hm. assert (m = 1 ∨ m = 2 ∨ m = 3 ∨ m = 4 ∨ m = 5 ∨ m = 6 ∨ m = 7
                     ∨ m = 8 ∨ m = 9 ∨ m = 10 ∨ m = 11 ∨ m = 12) as Hcase by lia.
  unfold days_before_month, days_in_month.
  destruct (is_leap y);
    repeat (destruct Hcase as [-> | Hcase]; [cbn; lia|]); subst; cbn; lia.
Qed.

(** Two dates with the same day number are the same date. *)
Lemma ymd2ord_inj y m d y' m' d' :
  1 <= m <= 12 → 1 <= d <= days_in_month y m →
  1 <= m' <= 12 → 1 <= d' <= days_in_month y' m' →
  ymd2ord y m d = ymd2ord y' m' d' →
  (y, m, d) = (y', m', d').
Proof.
  intros Hm Hd Hm' Hd' E. unfold ymd2ord in E.
  pose proof (days_before_month_year y m Hm).
  pose proof (days_before_month_year y' m' Hm').
  pose proof (days_before_year_succ y).
  pose proof (days_before_year_succ y').
  assert (y = y') as <-.
  { destruct (Z.lt_trichotomy y y') as [Hlt|[->|Hlt]]; [|done|].
    - pose proof (days_before_year_mono (y + 1) y' ltac:(lia)). lia.
    - pose proof (days_before_year_mono (y' + 1) y ltac:(lia)). lia. }
  assert (m = m') as <-.
  { destruct (Z.lt_trichotomy m m') as [Hlt|[->|Hlt]]; [|done|].
    - pose proof (days_before_month_mono y m m' ltac:(lia) Hlt ltac:(lia)). lia.
    - pose proof (days_before_month_mono y m' m ltac:(lia) Hlt ltac:(lia)). lia. }
  f_equal. lia.
Qed.

Lemma ord2ymd_ymd2ord y m d :
  1 <= m <= 12 → 1 <= d <= days_in_month y m →
  ord2ymd (ymd2ord y m d) = (y, m, d).
Proof.
  intros Hm Hd. pose proof (ord2ymd_spec (ymd2ord y m d)) as H.
  destruct (ord2ymd _) as [[y' m'] d']. destruct H as (E & Hm' & Hd').
  by apply ymd2ord_inj.
Qed.

(** The last day of the previous month comes right before the first day of
    a month. *)
Lemma previous_month_end y m :
  1 <= m <= 12 →
  let '(y', m') := if m =? 1 then (y - 1, 12) else (y, m - 1) in
  1 <= m' <= 12 ∧ ymd2ord y' m' (days_in_month y' m') = ymd2ord y m 0.
Proof.
  intros Hm. destruct (Z.eqb_spec m 1) as [->|Hne].
  - split; [lia|]. unfold ymd2ord.
    pose proof (days_before_year_succ (y - 1)) as Hs.
    replace (y - 1 + 1) with y in Hs by lia. rewrite Hs.
    unfold days_before_month, days_in_month. destruct (is_leap (y - 1)); cbn; lia.
  - split; [lia|]. unfold ymd2ord.
    pose proof (days_before_month_succ y (m - 1) ltac:(lia)) as Hs.
    replace (m - 1 + 1) with m in Hs by lia. lia.
Qed.

End Calendar.

(** ** Offsets on the grid *)

Module Grid.

Import pd Calendar.

Lemma DAY_pos : 0 < DAY.
Proof. reflexivity. Qed.

(** A midnight is a whole number of days. *)
Lemma midnight_days v : time_of_day v = 0 → v = (v / DAY) * DAY.
Proof.
  unfold time_of_day. intros H.
  pose proof (Z.div_mod v DAY ltac:(pose proof DAY_pos; lia)). lia.
Qed.

Lemma time_of_day_days q : time_of_day (q * DAY) = 0.
Proof. unfold time_of_day. apply Z.mod_mul. pose proof DAY_pos; lia. Qed.

Lemma toordinal_days q : toordinal (q * DAY) = q + epoch_ordinal.
Proof. unfold toordinal. rewrite Z.div_mul; [done|]. pose proof DAY_pos; lia. Qed.

Lemma weekday_of_days q : weekday_of (q * DAY) = (q + 3) mod 7.
Proof. unfold weekday_of. rewrite Z.div_mul; [done|]. pose proof DAY_pos; lia. Qed.

Lemma days_le q q' : q * DAY <= q' * DAY ↔ q <= q'.
Proof. pose proof DAY_pos. split; intros; nia. Qed.

Lemma midnight_spec v :
  time_of_day (midnight v) = 0 ∧ midnight v <= v ∧ v < midnight v + DAY.
Proof.
  unfold midnight, time_of_day. pose proof DAY_pos.
  pose proof (Z.mod_pos_bound v DAY ltac:(lia)).
  split; [|lia].
  rewrite Zminus_mod, Z.mod_mod, Z.sub_diag by lia. apply Z.mod_0_l. lia.
Qed.

Lemma midnight_id v : time_of_day v = 0 → midnight v = v.
Proof. unfold midnight. intros ->. lia. Qed.

(** Rolling a midnight back on a month-end rule reaches the latest month-end
    midnight that is not after it. *)
Lemma rollback_month_end n v :
  time_of_day v = 0 →
  ∃ r, rollback (MonthEnd n) v = Some r
       ∧ time_of_day r = 0
       ∧ is_on_offset (MonthEnd n) r = Some true
       ∧ r <= v
       ∧ ∀ g, time_of_day g = 0 → is_on_offset (MonthEnd n) g = Some true →
              g <= v → g <= r.
Proof.
  intros Hv. apply midnight_days in Hv. set (q := v / DAY) in *. clearbody q. subst v.
  unfold rollback, is_on_offset, minus_one, date_of.
  rewrite toordinal_days, time_of_day_days.
  pose proof (ord2ymd_spec (q + epoch_ordinal)) as Hspec.
  destruct (ord2ymd (q + epoch_ordinal)) as [[y m] d] eqn:Edate.
  destruct Hspec as (Eord & Hm & Hd).
  destruct (Z.eqb_spec d (days_in_month y m)) as [Hend|Hmid].
  - exists (q * DAY). rewrite toordinal_days, Edate, time_of_day_days.
    repeat split; [|lia|auto]. f_equal. by apply Z.eqb_eq.
  - pose proof (previous_month_end y m Hm) as Hprev.
    destruct (if m =? 1 then (y - 1, 12) else (y, m - 1)) as [y' m'].
    destruct Hprev as [Hm' Eprev].
    assert (ymd2ord y' m' (days_in_month y' m') = q - d + epoch_ordinal) as E'.
    { rewrite Eprev. unfold ymd2ord in *. lia. }
    rewrite E'. replace (q - d + epoch_ordinal - epoch_ordinal) with (q - d) by lia.
    rewrite Z.add_0_r. exists ((q - d) * DAY).
    rewrite toordinal_days, time_of_day_days, <- E'.
    pose proof (days_in_month_bounds y' m').
    rewrite ord2ymd_ymd2ord by lia. rewrite Z.eqb_refl.
    repeat split; [rewrite days_le; lia|].
    intros g Hg Hon Hle. apply midnight_days in Hg.
    set (p := g / DAY) in *. clearbody p. subst g.
    rewrite days_le. rewrite days_le in Hle.
    destruct (Z.le_gt_cases p (q - d)) as [|Hgt]; [done|exfalso].
    rewrite toordinal_days in Hon.
    assert (p + epoch_ordinal = ymd2ord y m (p - (q - d))) as Ep
      by (unfold ymd2ord in *; lia).
    rewrite Ep, ord2ymd_ymd2ord in Hon by lia.
    injection Hon as Hon. apply Z.eqb_eq in Hon. lia.
Qed.

(** Rolling a midnight back on a weekly rule reaches the latest midnight of
    the anchor weekday that is not after it. *)
Lemma rollback_week n a v :
  time_of_day v = 0 →
  ∃ r, rollback (Week n a) v = Some r
       ∧ time_of_day r = 0
       ∧ is_on_offset (Week n a) r = Some true
       ∧ r <= v
       ∧ ∀ g, time_of_day g = 0 → is_on_offset (Week n a) g = Some true →
              g <= v → g <= r.
Proof.
  intros Hv. apply midnight_days in Hv. set (q := v / DAY) in *. clearbody q. subst v.
  unfold rollback, is_on_offset, minus_one. rewrite weekday_of_days.
  assert (0 <= weekday_num a <= 6) as Ha by (destruct a; cbn; lia).
  destruct (Z.eqb_spec ((q + 3) mod 7) (weekday_num a)) as [Hon|Hoff].
  - exists (q * DAY). rewrite weekday_of_days, time_of_day_days.
    repeat split; [|lia|auto]. f_equal. by apply Z.eqb_eq.
  - set (j := (weekday_num a - (q + 3) mod 7) mod 7).
    exists ((q + j - 7) * DAY).
    assert (1 <= j <= 6 ∧ (q + j - 7 + 3) mod 7 = weekday_num a) as [Hj Hwd]
      by (subst j; Z.div_mod_to_equations; lia).
    rewrite weekday_of_days, time_of_day_days, Hwd, Z.eqb_refl.
    split; [f_equal; lia|]. repeat split; [rewrite days_le; lia|].
    intros g Hg Hong Hle. apply midnight_days in Hg.
    set (p := g / DAY) in *. clearbody p. subst g.
    rewrite days_le. rewrite days_le in Hle.
    rewrite weekday_of_days in Hong. injection Hong as Hong. apply Z.eqb_eq in Hong.
    clear Hwd. subst j. Z.div_mod_to_equations. lia.
Qed.


Lemma name_month_or_sunday o :
  name o ∈ ["M"; "W-SUN"] →
  (∃ n, o = MonthEnd n) ∨ (∃ n, o = Week n SUN) ∨ (∃ n c, o = Calendar n c).
Proof.
  rewrite !elem_of_cons, elem_of_nil.
  destruct o as [n u|n|n a|n|n c]; cbn; eauto.
  - destruct u; intros [|[|[]]]; discriminate.
  - destruct a; intros [|[|[]]]; try discriminate; eauto.
  - intros [|[|[]]]; discriminate.
Qed.

(** The midnight of an instant is the latest midnight not after it. *)
Lemma midnight_greatest g w : time_of_day g = 0 → g <= w → g <= midnight w.
Proof.
  intros Hg Hgw. pose proof (midnight_spec w) as (Hmid & Hle & Hlt).
  apply midnight_days in Hg. apply midnight_days in Hmid.
  rewrite Hg, Hmid. rewrite days_le.
  assert (g / DAY * DAY < (midnight w / DAY + 1) * DAY) as Hlt' by lia.
  pose proof DAY_pos. nia.
Qed.

Lemma rollback_on_grid o w :
  name o ∈ ["M"; "W-SUN"] →
  (∀ n c, o = Calendar n c → c ∉ ["M"; "W-SUN"]) →
  ∃ v, rollback o (midnight w) = Some v
       ∧ time_of_day v = 0
       ∧ is_on_offset o v = Some true
       ∧ v <= w
       ∧ ∀ g, time_of_day g = 0 → is_on_offset o g = Some true →
              g <= w → g <= v.
Proof.
  intros Hname Hcal. pose proof (midnight_spec w) as (Hmid & Hle & Hlt).
  pose proof (λ g, midnight_greatest g w) as Hgrid.
  destruct (name_month_or_sunday o Hname) as [[n ->]|[[n ->]|(n & c & ->)]].
  - destruct (rollback_month_end n _ Hmid) as (v & Hv & H0 & Hon & Hvle & Hmax).
    exists v. split_and!; [done..|lia|]. intros g Hg Hg' Hgw. apply Hmax; auto.
  - destruct (rollback_week n SUN _ Hmid) as (v & Hv & H0 & Hon & Hvle & Hmax).
    exists v. split_and!; [done..|lia|]. intros g Hg Hg' Hgw. apply Hmax; auto.
  - destruct (Hcal n c eq_refl). exact Hname.
Qed.

End Grid.

(** ** Timestamp normalization *)

Section Normalization.

Context {RT : Runtime}.

Lemma check_bounds_ok v tz :
  pd.in_bounds v tz = true → check_bounds v tz = Ok v.
Proof. unfold check_bounds. by intros ->. Qed.

Lemma check_bounds_inv v tz r :
  check_bounds v tz = Ok r → r = v ∧ pd.in_bounds v tz = true.
Proof.
  unfold check_bounds. destruct (pd.in_bounds v tz); [|discriminate].
  by intros [= <-].
Qed.

(** What [pd.Timestamp] has read lies within the range. *)
Lemma convert_to_tsobject_bounds raw w z :
  convert_to_tsobject raw = Ok (w, z) → pd.in_bounds w z = true.
Proof.
  unfold convert_to_tsobject.
  destruct (match raw with PTimestamp t => _ | _ => _ end) as [[w0 z0]|];
    [|discriminate]. cbn.
  destruct (check_bounds w0 z0) as [v|] eqn:E; [|discriminate].
  intros [= <- <-]. by apply check_bounds_inv in E as [-> ?].
Qed.

Lemma convert_to_tsobject_Timestamp ts :
  pd.in_bounds (pd.value ts) (pd.tz ts) = true →
  convert_to_tsobject (PTimestamp ts) = Ok (pd.value ts, pd.tz ts).
Proof. intros H. unfold convert_to_tsobject. cbn. by rewrite check_bounds_ok. Qed.

Lemma pd_Timestamp_ok raw freq w z o :
  convert_to_tsobject raw = Ok (w, z) →
  pd_to_offset freq = Some o →
  pd_Timestamp raw freq = Ok (pd.mkTimestamp w z (Some o)).
Proof. intros H1 H2. unfold pd_Timestamp, to_offset. by rewrite H1, H2. Qed.

Lemma pd_Timestamp_inv raw freq ts :
  pd_Timestamp raw freq = Ok ts →
  ∃ w z o, convert_to_tsobject raw = Ok (w, z)
           ∧ pd_to_offset freq = Some o
           ∧ ts = pd.mkTimestamp w z (Some o).
Proof.
  unfold pd_Timestamp, to_offset.
  destruct (convert_to_tsobject raw) as [[w z]|]; [|discriminate]. cbn.
  destruct (pd_to_offset freq) as [o|]; [|discriminate]. cbn.
  intros [= <-]. eauto 6.
Qed.

(** The three branches of [process], once the value and the frequency have
    been read. *)
Lemma ProcessStartField_process_cases raw freq w z o :
  convert_to_tsobject raw = Ok (w, z) →
  pd_to_offset freq = Some o →
  ProcessStartField_process raw freq =
    if bool_decide (pd.name o ∈ ["M"; "W-SUN"]) then
      match check_bounds (pd.midnight w) z with
      | Ok m =>
          match pd.rollback o m with
          | Some v =>
              match check_bounds v z with
              | Ok v => Ok (pd.mkTimestamp v z (Some o))
              | Raise e => Raise e
              end
          | None => Raise (OtherError "rollback: rule not modelled")
          end
      | Raise e => Raise e
      end
    else if bool_decide (o = pd.BusinessDay 1) then Ok (pd.mkTimestamp w z (Some o))
    else match pd.floor o w with
         | pd.Rounded v =>
             if pd.in_bounds v z then Ok (pd.mkTimestamp v z (Some o))
             else Raise (ValueError (pd_fault_text (pd.CannotRound w o)))
         | pd.NotFixed =>
             Raise (ValueError (pd_fault_text (pd.NonFixedFrequency o)))
         | pd.ZeroUnit =>
             Raise (ZeroDivisionError (pd_fault_text pd.DivisionByZero))
         end.
Proof.
  intros H1 H2. unfold ProcessStartField_process.
  rewrite (pd_Timestamp_ok _ _ _ _ _ H1 H2). cbn [bind pd.freq].
  case_bool_decide as Hname.
  - unfold to_offset. rewrite H2. cbn [bind].
    unfold Timestamp_replace_midnight. cbn [pd.value pd.tz pd.freq].
    destruct (check_bounds (pd.midnight w) z) as [m|e]; cbn [bind]; [|done].
    unfold offset_rollback. cbn [pd.value pd.tz pd.freq].
    destruct (pd.rollback o m) as [v|]; [|done].
    by destruct (check_bounds v z).
  - case_bool_decide; [done|].
    unfold Timestamp_floor. cbn [pd.value pd.tz pd.freq].
    destruct (pd.floor o w) as [v| |]; cbn [bind]; [|done|done].
    by destruct (pd.in_bounds v z).
Qed.

Lemma tick_nanos_pos u : 0 < pd.tick_nanos u.
Proof. by destruct u. Qed.




Lemma floor_idempotent o w v :
  pd.floor o w = pd.Rounded v → pd.floor o v = pd.Rounded v.
Proof.
  destruct o as [n u| | | |]; cbn; try discriminate.
  destruct (Z.eqb_spec (n * pd.tick_nanos u) 0) as [|Hne]; [discriminate|].
  intros [= <-]. f_equal.
  rewrite Zminus_mod, Z.mod_mod, Z.sub_diag, Z.mod_0_l by done. lia.
Qed.

(** What a successful [process] has done. *)
Lemma ProcessStartField_process_ok raw freq ts :
  ProcessStartField_process raw freq = Ok ts →
  ∃ w z o v,
    convert_to_tsobject raw = Ok (w, z)
    ∧ pd_to_offset freq = Some o
    ∧ ts = pd.mkTimestamp v z (Some o)
    ∧ pd.in_bounds v z = true
    ∧ ((pd.name o ∈ ["M"; "W-SUN"] ∧ pd.time_of_day v = 0
        ∧ pd.is_on_offset o v = Some true ∧ v <= w)
       ∨ ((pd.name o ∉ ["M"; "W-SUN"]) ∧ o = pd.BusinessDay 1 ∧ v = w)
       ∨ ((pd.name o ∉ ["M"; "W-SUN"]) ∧ o ≠ pd.BusinessDay 1
          ∧ pd.floor o w = pd.Rounded v)).
Proof.
  intros Hp.
  assert (∃ w z o, convert_to_tsobject raw = Ok (w, z)
                   ∧ pd_to_offset freq = Some o) as (w & z & o & Hraw & Hfreq).
  { unfold ProcessStartField_process in Hp.
    destruct (pd_Timestamp raw freq) as [t|] eqn:Et; [|discriminate].
    apply pd_Timestamp_inv in Et as (w & z & o & ? & ? & _). eauto. }
  rewrite (ProcessStartField_process_cases _ _ _ _ _ Hraw Hfreq) in Hp.
  pose proof (convert_to_tsobject_bounds _ _ _ Hraw) as Hw.
  exists w, z, o.
  case_bool_decide as Hname.
  - assert (∀ n c, o = pd.Calendar n c → c ∉ ["M"; "W-SUN"]) as Hcal.
    { intros n c ->. by eapply pd_to_offset_names. }
    destruct (Grid.rollback_on_grid o w Hname Hcal) as (v & Hv & H0 & Hon & Hle & _).
    destruct (check_bounds (pd.midnight w) z) as [m|] eqn:Em; [|discriminate].
    apply check_bounds_inv in Em as [-> _]. rewrite Hv in Hp.
    destruct (check_bounds v z) as [v'|] eqn:Ev; [|discriminate].
    apply check_bounds_inv in Ev as [-> Hb]. injection Hp as <-.
    exists v. split_and!; try done. by left.
  - case_bool_decide as Hb.
    + injection Hp as <-. exists w. split_and!; try done. right. by left.
    + destruct (pd.floor o w) as [v| |] eqn:Ev; [|discriminate..].
      destruct (pd.in_bounds v z) eqn:Hv; [|discriminate].
      injection Hp as <-. exists v. split_and!; try done. right. by right.
Qed.

(** A timestamp that [process] returned is returned again when handed
    back. *)
Lemma ProcessStartField_process_again raw freq ts :
  ProcessStartField_process raw freq = Ok ts →
  ProcessStartField_process (PTimestamp ts) freq = Ok ts.
Proof.
  intros Hfirst.
  apply ProcessStartField_process_ok in Hfirst
    as (w & z & o & v & Hraw & Hfreq & -> & Hb & Hcase).
  rewrite (ProcessStartField_process_cases _ freq v z o
             (convert_to_tsobject_Timestamp (pd.mkTimestamp v z (Some o)) Hb) Hfreq).
  destruct Hcase as [(Hname & H0 & Hon & _)|[(Hname & -> & ->)|(Hname & Hne & Hfl)]].
  - rewrite bool_decide_eq_true_2 by done.
    rewrite (Grid.midnight_id _ H0), check_bounds_ok by done.
    unfold pd.rollback. rewrite Hon. by rewrite check_bounds_ok.
  - rewrite bool_decide_eq_false_2 by done. by rewrite bool_decide_eq_true_2.
  - rewrite bool_decide_eq_false_2 by done.
    rewrite bool_decide_eq_false_2 by done.
    by rewrite (floor_idempotent _ _ _ Hfl), Hb.
Qed.

(** C6: normalizing the result of a successful normalization again, under
    the same frequency, gives that result. *)
Theorem normalization_idempotent raw freq ts :
  ProcessStartField_process raw freq = Ok ts →
  ProcessStartField_process (PTimestamp ts) freq = Ok ts.
Proof. apply ProcessStartField_process_again. Qed.




End Normalization.

(** ** More on the field processors *)

Section FieldProcessors.

Context {RT : Runtime}.

Lemma ProcessTimeSeriesField_call_ok self (data data' : DataEntry) :
  ProcessTimeSeriesField_call self data = Ok data' →
  (∀ key, key ≠ name self → data' !! key = data !! key)
  ∧ match data !! name self with
    | None => data' = data
    | Some v =>
        if is_None v then data' = data
        else ∃ a, data' !! name self = Some (PArray a)
                  ∧ np.ndim a = req_ndim self
    end.
Proof.
  unfold ProcessTimeSeriesField_call.
  destruct (data !! name self) as [v|] eqn:Hget; simpl.
  - destruct (is_None v) eqn:Hnone; simpl.
    + destruct (is_required self); simpl; [discriminate|].
      intros [= <-]. by split.
    + destruct (np_asarray (dtype self) v) as [a|e]; simpl; [|discriminate].
      destruct (Z.eqb_spec (req_ndim self - np.ndim a) 1) as [H1|H1].
      * intros [= <-]. split.
        -- intros key Hkey. by rewrite lookup_insert_ne.
        -- exists (np.expand_dims a). rewrite lookup_insert_eq. split; [done|].
           unfold np.ndim, np.expand_dims in *. cbn [np.shape length]. lia.
      * destruct (Z.eqb_spec (req_ndim self - np.ndim a) 0) as [H0|H0];
          simpl; [|discriminate].
        intros [= <-]. split.
        -- intros key Hkey. by rewrite lookup_insert_ne.
        -- exists a. rewrite lookup_insert_eq. split; [done|lia].
  - destruct (is_required self); simpl; [discriminate|].
    intros [= <-]. by split.
Qed.

(** X1: when the field coercer succeeds, every other key of the dictionary
    is as before; a field that is absent or [None] leaves the dictionary as
    it is, and otherwise the field holds an array with exactly the required
    number of dimensions. *)
Theorem coerced_field_has_required_rank self (data data' : DataEntry) :
  ProcessTimeSeriesField_call self data = Ok data' →
  (∀ key, key ≠ name self → data' !! key = data !! key)
  ∧ match data !! name self with
    | None => data' = data
    | Some v =>
        if is_None v then data' = data
        else ∃ a, data' !! name self = Some (PArray a)
                  ∧ np.ndim a = req_ndim self
    end.
Proof. apply ProcessTimeSeriesField_call_ok. Qed.

(** X2: the field coercer catches nothing: an exception numpy raises while
    building the array (a ragged sequence, a value that is not a number)
    comes out as it is, not as a [GluonTSDataError]. *)
Theorem conversion_error_escapes self (data : DataEntry) v e :
  data !! name self = Some v →
  is_None v = false →
  np_asarray (dtype self) v = Raise e →
  ProcessTimeSeriesField_call self data = Raise e.
Proof.
  intros Hget Hnone Harr. unfold ProcessTimeSeriesField_call.
  rewrite Hget. simpl. rewrite Hnone. simpl. by rewrite Harr.
Qed.

(** A sequence of two elements that become arrays of different shapes is
    ragged. *)
Lemma np_asarray_ragged dt (x y : pyval scalar) a b :
  np_asarray dt x = Ok a → np_asarray dt y = Ok b → np.shape a ≠ np.shape b →
  np_asarray dt (PList [x; y])
  = Raise (ValueError "setting an array element with a sequence.").
Proof.
  intros Hx Hy Hne. cbn. rewrite Hx, Hy. cbn. unfold np.stack.
  cbn [forallb]. rewrite bool_decide_eq_true_2 by done.
  rewrite (bool_decide_eq_false_2 (np.shape b = np.shape a)) by congruence.
  reflexivity.
Qed.

Lemma ProcessStartField_call_ok self (data data' : DataEntry) :
  ProcessStartField_call self data = Ok data' →
  ∃ raw w o v,
    data !! psf_name self = Some raw
    ∧ convert_to_tsobject raw = Ok (w, None)
    ∧ pd_to_offset (psf_freq self) = Some o
    ∧ pd.in_bounds v None = true
    ∧ (0 <= pd.multiple o → v <= w)
    ∧ data' = <[psf_name self := PTimestamp (pd.mkTimestamp v None (Some o))]> data.
Proof.
  unfold ProcessStartField_call.
  destruct (data !! psf_name self) as [raw|] eqn:Hget; [|discriminate].
  destruct (ProcessStartField_process raw (psf_freq self)) as [ts|e] eqn:Hp;
    [|by destruct e].
  case_bool_decide as Htz; [discriminate|]. intros [= <-].
  assert (pd.tz ts = None) as Htz' by (by destruct (pd.tz ts); [destruct Htz|]).
  apply ProcessStartField_process_ok in Hp
    as (w & z & o & v & Hraw & Hfreq & -> & Hb & Hcase).
  cbn in Htz'. subst z. exists raw, w, o, v. split_and!; try done.
  intros Hn.
  destruct Hcase as [(_ & _ & _ & Hle)|[(_ & _ & ->)|(_ & _ & Hfl)]]; [done|lia|].
  destruct o as [n u| | | |]; cbn in Hfl; try discriminate.
  destruct (Z.eqb_spec (n * pd.tick_nanos u) 0) as [|Hne]; [discriminate|].
  injection Hfl as <-. cbn in Hn. pose proof (tick_nanos_pos u).
  pose proof (Z.mod_pos_bound w (n * pd.tick_nanos u) ltac:(nia)). lia.
Qed.

(** X3: when the start-field processor succeeds, the value it read was a
    timestamp without timezone under a frequency pandas accepts; the field
    now holds a timestamp without timezone, within the range of timestamps
    and tagged with that frequency, which is not later than the value read
    when the multiple of the frequency is not negative; every other key is
    as before. *)
Theorem start_field_postcondition self (data data' : DataEntry) :
  ProcessStartField_call self data = Ok data' →
  ∃ raw w o v,
    data !! psf_name self = Some raw
    ∧ convert_to_tsobject raw = Ok (w, None)
    ∧ pd_to_offset (psf_freq self) = Some o
    ∧ pd.in_bounds v None = true
    ∧ (0 <= pd.multiple o → v <= w)
    ∧ data' = <[psf_name self := PTimestamp (pd.mkTimestamp v None (Some o))]> data.
Proof. apply ProcessStartField_call_ok. Qed.

(** X4: the start-field processor never lets a [TypeError] or a
    [ValueError] out. *)
Theorem start_field_wraps_parse_errors self (data : DataEntry) e :
  ProcessStartField_call self data = Raise e →
  (∀ msg, e ≠ TypeError msg) ∧ (∀ msg, e ≠ ValueError msg).
Proof.
  unfold ProcessStartField_call.
  destruct (data !! psf_name self) as [raw|].
  - destruct (ProcessStartField_process raw (psf_freq self)) as [ts|[]].
    + case_bool_decide; [|discriminate]. intros [= <-]. by split.
    + intros [= <-]. by split.
    + intros [= <-]. by split.
    + intros [= <-]. by split.
    + intros [= <-]. by split.
    + intros [= <-]. by split.
    + intros [= <-]. by split.
  - intros [= <-]. by split.
Qed.

(** X5: with a frequency string pandas does not know, every start value
    that reads as a timestamp is refused with a [GluonTSDataError] that
    quotes the frequency and names the field. *)
Theorem invalid_frequency_is_a_data_error self (data : DataEntry) raw p :
  pd_to_offset (psf_freq self) = None →
  data !! psf_name self = Some raw →
  convert_to_tsobject raw = Ok p →
  ProcessStartField_call self data
  = Raise (GluonTSDataError
             (start_error_message
                (ValueError ("Invalid frequency: " +:+ psf_freq self))
                (psf_name self))).
Proof.
  intros Hfreq Hget Hraw. unfold ProcessStartField_call. rewrite Hget.
  unfold ProcessStartField_process, pd_Timestamp, to_offset.
  by rewrite Hraw, Hfreq.
Qed.

End FieldProcessors.

(** ** More on the record processor *)

Section RecordProcessor.

Context {RT : Runtime}.

Lemma ProcessDataEntry_call_cons t rest (data data' : DataEntry) :
  ProcessDataEntry_call (t :: rest) data = Ok data' →
  ∃ d, t data = Ok d ∧ ProcessDataEntry_call rest d = Ok data'.
Proof. cbn. destruct (t data) as [d|]; [eauto|discriminate]. Qed.

(** The six steps of the record processor, one after the other. *)
Lemma ProcessDataEntry_call_steps freq one_dim_target (data data' : DataEntry) :
  ProcessDataEntry_call (ProcessDataEntry_init freq one_dim_target) data = Ok data' →
  ∃ d1 d2 d3 d4 d5,
    ProcessStartField_call (mkProcessStartField "start" freq) data = Ok d1
    ∧ ProcessTimeSeriesField_call
        (ProcessTimeSeriesField_init "target" true one_dim_target false) d1 = Ok d2
    ∧ ProcessTimeSeriesField_call
        (ProcessTimeSeriesField_init "feat_dynamic_cat" false false true) d2 = Ok d3
    ∧ ProcessTimeSeriesField_call
        (ProcessTimeSeriesField_init "feat_dynamic_real" false false false) d3 = Ok d4
    ∧ ProcessTimeSeriesField_call
        (ProcessTimeSeriesField_init "feat_static_cat" false true true) d4 = Ok d5
    ∧ ProcessTimeSeriesField_call
        (ProcessTimeSeriesField_init "feat_static_real" false true false) d5 = Ok data'.
Proof.
  unfold ProcessDataEntry_init. intros H.
  apply ProcessDataEntry_call_cons in H as (d1 & H1 & H).
  apply ProcessDataEntry_call_cons in H as (d2 & H2 & H).
  apply ProcessDataEntry_call_cons in H as (d3 & H3 & H).
  apply ProcessDataEntry_call_cons in H as (d4 & H4 & H).
  apply ProcessDataEntry_call_cons in H as (d5 & H5 & H).
  apply ProcessDataEntry_call_cons in H as (d6 & H6 & H).
  cbn in H. injection H as <-. exists d1, d2, d3, d4, d5. by split_and!.
Qed.

(** What one coercion step leaves at a key, in terms of what was there. *)
Lemma coercion_step key is_required is_static is_cat (d d' : DataEntry) :
  ProcessTimeSeriesField_call
    (ProcessTimeSeriesField_init key is_required is_static is_cat) d = Ok d' →
  (∀ k, k ≠ key → d' !! k = d !! k)
  ∧ match d !! key with
    | None => d' !! key = None
    | Some v =>
        if is_None v then d' !! key = Some v
        else ∃ a, d' !! key = Some (PArray a)
                  ∧ np.ndim a = (if is_static then 1 else 2)
    end.
Proof.
  intros H. apply ProcessTimeSeriesField_call_ok in H as [Hother Hfield].
  cbn [name req_ndim ProcessTimeSeriesField_init] in *. split; [done|].
  destruct (d !! key) as [v|] eqn:E.
  - destruct (is_None v); [by subst|done].
  - by subst.
Qed.

Lemma required_field_present key is_static is_cat (d d' : DataEntry) :
  ProcessTimeSeriesField_call
    (ProcessTimeSeriesField_init key true is_static is_cat) d = Ok d' →
  ∃ v, d !! key = Some v ∧ is_None v = false.
Proof.
  intros H. destruct (d !! key) as [v|] eqn:E.
  - exists v. split; [done|]. destruct (is_None v) eqn:En; [|done].
    rewrite ProcessTimeSeriesField_call_none in H; [discriminate|].
    cbn [name ProcessTimeSeriesField_init]. rewrite E. by destruct v.
  - rewrite ProcessTimeSeriesField_call_none in H; [discriminate|].
    cbn [name ProcessTimeSeriesField_init]. by rewrite E.
Qed.

(** X6: a record that passes the record processor has a [start] without
    timezone tagged with the dataset's frequency, a [target] array of rank 1
    (univariate) or 2, every feature field that was given as an array of its
    declared rank (dynamic 2, static 1), every feature field that was absent
    or [None] still so, and every other key untouched. *)
Theorem validated_record_invariant freq one_dim_target (data data' : DataEntry) :
  ProcessDataEntry_call (ProcessDataEntry_init freq one_dim_target) data = Ok data' →
  (∃ v o, pd_to_offset freq = Some o
          ∧ data' !! "start" = Some (PTimestamp (pd.mkTimestamp v None (Some o))))
  ∧ (∃ a, data' !! "target" = Some (PArray a)
          ∧ np.ndim a = (if one_dim_target then 1 else 2))
  ∧ (∀ key r,
       (key, r) ∈ [("feat_dynamic_cat", 2); ("feat_dynamic_real", 2);
                   ("feat_static_cat", 1); ("feat_static_real", 1)] →
       match data !! key with
       | None => data' !! key = None
       | Some v =>
           if is_None v then data' !! key = Some v
           else ∃ a, data' !! key = Some (PArray a) ∧ np.ndim a = r
       end)
  ∧ (∀ key,
       key ∉ ["start"; "target"; "feat_dynamic_cat"; "feat_dynamic_real";
              "feat_static_cat"; "feat_static_real"] →
       data' !! key = data !! key).
Proof.
  intros H.
  apply ProcessDataEntry_call_steps in H
    as (d1 & d2 & d3 & d4 & d5 & H1 & H2 & H3 & H4 & H5 & H6).
  apply ProcessStartField_call_ok in H1
    as (raw & w & o & v & Hraw & Hconv & Hfreq & Hb & Hle & ->).
  cbn [psf_name psf_freq] in *.
  pose proof (required_field_present _ _ _ _ _ H2) as (t & Ht & Hnone).
  apply coercion_step in H2 as [O2 F2]. apply coercion_step in H3 as [O3 F3].
  apply coercion_step in H4 as [O4 F4]. apply coercion_step in H5 as [O5 F5].
  apply coercion_step in H6 as [O6 F6].
  split_and!.
  - exists v, o. split; [done|].
    rewrite O6, O5, O4, O3, O2 by done. by rewrite lookup_insert_eq.
  - rewrite O6, O5, O4, O3 by done. by rewrite Ht, Hnone in F2.
  - intros key r Hin. rewrite !elem_of_cons, elem_of_nil in Hin.
    destruct Hin as [[= -> ->]|[[= -> ->]|[[= -> ->]|[[= -> ->]|[]]]]].
    + rewrite O6, O5, O4 by done.
      rewrite O2, lookup_insert_ne in F3 by done. exact F3.
    + rewrite O6, O5 by done.
      rewrite O3, O2, lookup_insert_ne in F4 by done. exact F4.
    + rewrite O6 by done.
      rewrite O4, O3, O2, lookup_insert_ne in F5 by done. exact F5.
    + rewrite O5, O4, O3, O2, lookup_insert_ne in F6 by done. exact F6.
  - intros key Hkey. rewrite !not_elem_of_cons in Hkey.
    destruct Hkey as (? & ? & ? & ? & ? & ? & _).
    rewrite O6, O5, O4, O3, O2 by done. by rewrite lookup_insert_ne.
Qed.

(** X7: when the start field is fine and [target] is absent or [None], the
    record processor fails with the missing-field [GluonTSDataError],
    whatever the feature fields hold. *)
Theorem missing_target_is_a_data_error freq one_dim_target (data d1 : DataEntry) :
  ProcessStartField_call (mkProcessStartField "start" freq) data = Ok d1 →
  data !! "target" = None ∨ data !! "target" = Some PNone →
  ProcessDataEntry_call (ProcessDataEntry_init freq one_dim_target) data
  = Raise (GluonTSDataError (missing_field_message "target")).
Proof.
  intros H1 Htarget. cbn. rewrite H1. cbn.
  apply ProcessStartField_call_ok in H1
    as (raw & w & o & v & _ & _ & _ & _ & _ & ->).
  cbn [psf_name].
  rewrite ProcessTimeSeriesField_call_none; [done|].
  cbn [name ProcessTimeSeriesField_init]. rewrite lookup_insert_ne by done.
  by destruct Htarget as [-> | ->].
Qed.

(** A successful start-field call read a value that [process] accepted and
    that carries no timezone. *)
Lemma ProcessStartField_call_inv self (data data' : DataEntry) :
  ProcessStartField_call self data = Ok data' →
  ∃ raw ts,
    data !! psf_name self = Some raw
    ∧ ProcessStartField_process raw (psf_freq self) = Ok ts
    ∧ pd.tz ts = None
    ∧ data' = <[psf_name self := PTimestamp ts]> data.
Proof.
  unfold ProcessStartField_call.
  destruct (data !! psf_name self) as [raw|] eqn:Hget; [|discriminate].
  destruct (ProcessStartField_process raw (psf_freq self)) as [ts|e] eqn:Hp;
    [|by destruct e].
  case_bool_decide as Htz; [discriminate|]. intros [= <-].
  exists raw, ts. split_and!; try done; by destruct (pd.tz ts); [destruct Htz|].
Qed.

(** The start-field processor leaves its own output as it is. *)
Lemma ProcessStartField_call_again self (data d d' : DataEntry) :
  ProcessStartField_call self data = Ok d →
  d' !! psf_name self = d !! psf_name self →
  ProcessStartField_call self d' = Ok d'.
Proof.
  intros H Hsame.
  apply ProcessStartField_call_inv in H as (raw & ts & _ & Hp & Htz & ->).
  rewrite lookup_insert_eq in Hsame.
  unfold ProcessStartField_call. rewrite Hsame.
  rewrite (ProcessStartField_process_again _ _ _ Hp).
  rewrite bool_decide_eq_false_2 by (rewrite Htz; auto).
  by rewrite insert_id.
Qed.

Section CastStable.

(** Casting to a dtype a value that already has it changes nothing. *)
Hypothesis element_stable :
  ∀ dt (v : pyval scalar) x, np_element dt v = Ok x → np_astype dt x = x.
Hypothesis astype_stable :
  ∀ dt x, np_astype dt (np_astype dt x) = np_astype dt x.

Lemma map_fixed {A : Type} (f : A → A) (l : list A) :
  Forall (fun x => f x = x) l → map f l = l.
Proof. induction 1 as [|x l Hx _ IH]; cbn; congruence. Qed.

Lemma np_stack_flat (rows : list (np.ndarray scalar)) a (P : scalar → Prop) :
  np.stack rows = Ok a →
  Forall (fun r => Forall P (np.flat r)) rows → Forall P (np.flat a).
Proof.
  unfold np.stack. destruct rows as [|r rows]; [by intros [= <-]|].
  destruct (forallb _ _); [|discriminate]. intros [= <-] H.
  change (Forall P (concat (np.flat <$> (r :: rows)))).
  by rewrite Forall_concat, Forall_fmap.
Qed.

Lemma np_asarray_stable dt :
  ∀ (v : pyval scalar) a,
    np_asarray dt v = Ok a → Forall (fun x => np_astype dt x = x) (np.flat a).
Proof.
  fix IH 1. intros v a. destruct v as [|x|s|l|a0|t|c]; cbn [np_asarray].
  1-3, 6-7: (destruct (np_element dt _) as [y|] eqn:E; [|discriminate];
             intros [= <-]; cbn; constructor; [by eapply element_stable|constructor]).
  - match goal with
    | |- bind ?each _ = _ → _ =>
        assert (∀ rows, each = Ok rows →
                        Forall (fun r => Forall (fun x => np_astype dt x = x)
                                                (np.flat r)) rows) as Hrows
    end.
    { induction l as [|x l IHl]; intros rows.
      - intros [= <-]. constructor.
      - destruct (np_asarray dt x) as [ax|] eqn:Ex; [|discriminate].
        match goal with
        | |- match ?e with _ => _ end = _ → _ => destruct e as [rest|]; [|discriminate]
        end.
        intros [= <-]. constructor; [by apply (IH x)|by apply IHl]. }
    match goal with
    | |- bind ?each _ = _ → _ => destruct each as [rows|]; [|discriminate]
    end.
    cbn. intros Hs. eapply np_stack_flat; [done|]. by apply Hrows.
  - intros [= <-]. cbn. apply Forall_fmap, Forall_forall. intros x _.
    apply astype_stable.
Qed.

(** The field coercer leaves its own output as it is. *)
Lemma ProcessTimeSeriesField_call_again self (data d d' : DataEntry) :
  ProcessTimeSeriesField_call self data = Ok d →
  d' !! name self = d !! name self →
  ProcessTimeSeriesField_call self d' = Ok d'.
Proof.
  intros H Hsame.
  assert (default PNone (d !! name self) = PNone ∧ is_required self = false
          ∨ ∃ a, d !! name self = Some (PArray a)
                 ∧ np.ndim a = req_ndim self
                 ∧ Forall (fun x => np_astype (dtype self) x = x) (np.flat a))
    as [[Hnone Hreq]|(a & Ha & Hdim & Hst)].
  { unfold ProcessTimeSeriesField_call in H.
    destruct (is_None (default PNone (data !! name self))) eqn:Hn; simpl in H.
    - destruct (is_required self); simpl in H; [discriminate|].
      injection H as <-. left. split; [|done].
      by destruct (default PNone (data !! name self)).
    - destruct (np_asarray (dtype self) _) as [a|] eqn:Ea; [|discriminate].
      apply np_asarray_stable in Ea. simpl in H. right.
      destruct (Z.eqb_spec (req_ndim self - np.ndim a) 1).
      + injection H as <-. exists (np.expand_dims a).
        rewrite lookup_insert_eq. split_and!; [done| |done].
        unfold np.ndim, np.expand_dims in *. cbn [np.shape length]. lia.
      + destruct (Z.eqb_spec (req_ndim self - np.ndim a) 0); [|discriminate].
        injection H as <-. exists a. rewrite lookup_insert_eq.
        split_and!; [done|lia|done]. }
  - rewrite ProcessTimeSeriesField_call_none by (rewrite Hsame; exact Hnone).
    by rewrite Hreq.
  - rewrite <- Hsame in Ha.
    rewrite (ProcessTimeSeriesField_call_array self d' _ a Ha eq_refl).
    + cbn zeta. rewrite Hdim, Z.sub_diag. cbn. by rewrite insert_id.
    + cbn. destruct a as [sh fl]. cbn in *. by rewrite (map_fixed _ _ Hst).
Qed.

(** X8: processing a validated record again gives the same record, when
    casting to a dtype leaves a value of that dtype unchanged. *)
Theorem reprocessing_is_identity freq one_dim_target (data data' : DataEntry) :
  ProcessDataEntry_call (ProcessDataEntry_init freq one_dim_target) data = Ok data' →
  ProcessDataEntry_call (ProcessDataEntry_init freq one_dim_target) data' = Ok data'.
Proof.
  intros H.
  apply ProcessDataEntry_call_steps in H
    as (d1 & d2 & d3 & d4 & d5 & H1 & H2 & H3 & H4 & H5 & H6).
  pose proof (coercion_step _ _ _ _ _ _ H2) as [O2 _].
  pose proof (coercion_step _ _ _ _ _ _ H3) as [O3 _].
  pose proof (coercion_step _ _ _ _ _ _ H4) as [O4 _].
  pose proof (coercion_step _ _ _ _ _ _ H5) as [O5 _].
  pose proof (coercion_step _ _ _ _ _ _ H6) as [O6 _].
  cbn.
  rewrite (ProcessStartField_call_again _ _ _ data' H1)
    by (cbn; by rewrite O6, O5, O4, O3, O2). cbn.
  rewrite (ProcessTimeSeriesField_call_again _ _ _ data' H2)
    by (cbn; by rewrite O6, O5, O4, O3). cbn.
  rewrite (ProcessTimeSeriesField_call_again _ _ _ data' H3)
    by (cbn; by rewrite O6, O5, O4). cbn.
  rewrite (ProcessTimeSeriesField_call_again _ _ _ data' H4)
    by (cbn; by rewrite O6, O5). cbn.
  rewrite (ProcessTimeSeriesField_call_again _ _ _ data' H5)
    by (cbn; by rewrite O6). cbn.
  by rewrite (ProcessTimeSeriesField_call_again _ _ _ data' H6).
Qed.

End CastStable.

End RecordProcessor.

(** ** More on the memory-backed dataset *)

Section MoreDatasets.

Context {RT : Runtime}.

Implicit Types (σ : store) (l : loc).

Lemma in_place_frame t l σ σ' r :
  in_place t l σ = (σ', r) →
  dom σ' = dom σ ∧ ∀ l', l' ≠ l → σ' !! l' = σ !! l'.
Proof.
  unfold in_place. destruct (σ !! l) as [d|] eqn:E; [|by intros [= <- _]].
  destruct (t d); intros [= <- _]; [|done]. split.
  - apply dom_insert_lookup_L. by rewrite E.
  - intros l' Hne. by rewrite lookup_insert_ne.
Qed.

Lemma ProcessDataEntry_run_frame trans l σ σ' r :
  ProcessDataEntry_run trans l σ = (σ', r) →
  dom σ' = dom σ ∧ ∀ l', l' ≠ l → σ' !! l' = σ !! l'.
Proof.
  revert l σ. induction trans as [|t rest IH]; intros l σ; cbn.
  - by intros [= <- _].
  - destruct (in_place t l σ) as [σ1 [l1|e]] eqn:E.
    + pose proof (in_place_returns _ _ _ _ _ E) as ->.
      apply in_place_frame in E as [Hd Ho]. intros Hrun.
      apply IH in Hrun as [Hd' Ho']. split; [congruence|].
      intros l' Hne. by rewrite Ho', Ho.
    + intros [= <- _]. by apply in_place_frame in E.
Qed.

Lemma process_each_frame trans ls σ σ' r :
  process_each (ProcessDataEntry_run trans) ls σ = (σ', r) →
  dom σ' = dom σ ∧ ∀ l', l' ∉ ls → σ' !! l' = σ !! l'.
Proof.
  revert σ σ' r. induction ls as [|l ls IH]; intros σ σ' r; cbn.
  - by intros [= <- _].
  - destruct (ProcessDataEntry_run trans l σ) as [σ1 [l1|e]] eqn:E.
    + apply ProcessDataEntry_run_frame in E as [Hd Ho].
      destruct (process_each _ ls σ1) as [σ2 r2] eqn:E2.
      apply IH in E2 as [Hd2 Ho2].
      intros Heq. assert (σ' = σ2) as -> by (destruct r2; by injection Heq).
      split; [congruence|].
      intros l' Hl'. apply not_elem_of_cons in Hl' as [Hne Hl'].
      by rewrite Ho2, Ho.
    + intros [= <- _]. apply ProcessDataEntry_run_frame in E as [Hd Ho].
      split; [done|]. intros l' Hl'. apply not_elem_of_cons in Hl' as [Hne _]. auto.
Qed.

(** X9: construction, whether it succeeds or fails, allocates and frees
    nothing and leaves every object that is not among the records given as
    it was. *)
Theorem construction_frame data_iter freq one_dim_target σ :
  let σ' := (ListDataset_init data_iter freq one_dim_target σ).1 in
  dom σ' = dom σ ∧ ∀ l, l ∉ data_iter → σ' !! l = σ !! l.
Proof.
  cbn zeta. unfold ListDataset_init.
  destruct (process_each _ data_iter σ) as [σ' r] eqn:E.
  apply process_each_frame in E. by destruct r.
Qed.

(** With distinct allocated objects, the list comprehension processes each
    object's contents as the dictionary-level processor does, and fails with
    the exception of the first object whose contents are refused. *)
Lemma process_each_contents trans ls σ :
  NoDup ls →
  (∀ l, l ∈ ls → is_Some (σ !! l)) →
  match process_each (ProcessDataEntry_run trans) ls σ with
  | (σ', Ok ls') =>
      ∀ l d, l ∈ ls → σ !! l = Some d →
             ∃ d', ProcessDataEntry_call trans d = Ok d' ∧ σ' !! l = Some d'
  | (σ', Raise e) =>
      ∃ pre l post d,
        ls = pre ++ l :: post
        ∧ σ !! l = Some d
        ∧ ProcessDataEntry_call trans d = Raise e
        ∧ ∀ l0 d0, l0 ∈ pre → σ !! l0 = Some d0 →
                   ∃ d0', ProcessDataEntry_call trans d0 = Ok d0'
  end.
Proof.
  revert σ. induction ls as [|l ls IH]; intros σ Hnd Hall; cbn.
  - intros l d Hl. by apply elem_of_nil in Hl.
  - apply NoDup_cons in Hnd as [Hl Hnd].
    destruct (Hall l) as [d Hd]; [left|].
    pose proof (ProcessDataEntry_run_call trans l σ d Hd) as Hrun.
    destruct (ProcessDataEntry_call trans d) as [d'|e] eqn:Hcall.
    + rewrite Hrun.
      assert (∀ l0, l0 ∈ ls → <[l := d']> σ !! l0 = σ !! l0) as Hsame.
      { intros l0 Hl0. rewrite lookup_insert_ne; [done|]. by intros ->. }
      specialize (IH (<[l := d']> σ) Hnd).
      destruct (process_each _ ls (<[l := d']> σ)) as [σ2 [ls2|e2]] eqn:E2.
      * apply process_each_frame in E2 as [_ Ho].
        intros l0 d0 Hl0 Hd0. apply elem_of_cons in Hl0 as [->|Hl0].
        -- exists d'. rewrite Ho by done. rewrite lookup_insert_eq.
           split; congruence.
        -- apply IH; [|done|by rewrite Hsame].
           intros l1 Hl1. rewrite Hsame by done. apply Hall. by right.
      * destruct IH as (pre & l1 & post & d1 & -> & Hd1 & Hfail & Hpre).
        { intros l1 Hl1. rewrite Hsame by done. apply Hall. by right. }
        exists (l :: pre), l1, post, d1. split; [done|].
        rewrite Hsame in Hd1 by (apply elem_of_app; right; left).
        split; [done|]. split; [done|].
        intros l0 d0 Hl0 Hd0. apply elem_of_cons in Hl0 as [->|Hl0].
        -- exists d'. congruence.
        -- apply (Hpre l0 d0 Hl0).
           rewrite Hsame; [done|]. apply elem_of_app. by left.
    + destruct Hrun as [σ1 ->].
      exists [], l, ls, d. split; [done|]. split; [done|]. split; [done|].
      intros l0 d0 Hl0. by apply elem_of_nil in Hl0.
Qed.

(** X10: built from distinct dictionaries, a dataset holds each of them
    processed in place, exactly as the record processor maps its contents;
    construction fails exactly with the exception of the first dictionary
    the record processor refuses. *)
Theorem construction_processes_each_record data_iter freq one_dim_target σ :
  NoDup data_iter →
  (∀ l, l ∈ data_iter → is_Some (σ !! l)) →
  let process := ProcessDataEntry_call (ProcessDataEntry_init freq one_dim_target) in
  match ListDataset_init data_iter freq one_dim_target σ with
  | (σ', Ok self) =>
      ∀ l d, l ∈ data_iter → σ !! l = Some d →
             ∃ d', process d = Ok d' ∧ σ' !! l = Some d'
  | (σ', Raise e) =>
      ∃ pre l post d,
        data_iter = pre ++ l :: post
        ∧ σ !! l = Some d
        ∧ process d = Raise e
        ∧ ∀ l0 d0, l0 ∈ pre → σ !! l0 = Some d0 → ∃ d0', process d0 = Ok d0'
  end.
Proof.
  intros Hnd Hall process. unfold ListDataset_init.
  pose proof (process_each_contents (ProcessDataEntry_init freq one_dim_target)
                data_iter σ Hnd Hall) as H.
  by destruct (process_each _ data_iter σ) as [σ' [ls|e]].
Qed.

(** X11: the length of a dataset is the number of records it was built
    from, and a pass over it hands out that many entries. *)
Theorem len_counts_records {B : Type} (body : DataEntry → B)
  data_iter freq one_dim_target σ σ' self σ0 :
  ListDataset_init data_iter freq one_dim_target σ = (σ', Ok self) →
  ListDataset_len self = length data_iter
  ∧ length (for_each body (ListDataset_iter self) σ0).1 = ListDataset_len self.
Proof.
  intros H. unfold ListDataset_init in H.
  destruct (process_each _ data_iter σ) as [σ1 [ls|e]] eqn:E; [|discriminate].
  injection H as _ <-.
  apply process_each_returns in E as ->;
    [|intros *; apply ProcessDataEntry_run_returns].
  split; [done|].
  unfold ListDataset_iter, ListDataset_len.
  by rewrite for_each_length, enumerate_length.
Qed.

(** X12: after a complete pass, a stored record carries under [source] the
    row number of its last position in the list: its own position when the
    dictionaries are distinct, the later one when a dictionary was given
    twice. *)
Theorem pass_leaves_last_row {B : Type} (body : DataEntry → B) self σ i l d :
  list_data self !! i = Some l →
  (∀ j, (i < j)%nat → list_data self !! j ≠ Some l) →
  σ !! l = Some d →
  (for_each body (ListDataset_iter self) σ).2 !! l
  = Some (<["source" := stamp (Z.of_nat i + 1)]> d).
Proof.
  intros Hi Hlast Hd. rewrite for_each_store_lookup, Hd. cbn.
  unfold ListDataset_iter. rewrite (final_row_last 1 _ i l Hi Hlast).
  do 3 f_equal. lia.
Qed.

End MoreDatasets.

(** ** The serializer, the file filter, items and the identity predictor *)

Section Layout.

Context {RT : Runtime}.

Lemma rows_length {A : Type} n k (l : list A) : length (rows n k l) = n.
Proof. revert l. induction n as [|n IH]; intros l; cbn; [done|]. by rewrite IH. Qed.

Lemma rows_lookup {A : Type} n k (l : list A) i :
  (i < n)%nat → rows n k l !! i = Some (take k (drop (i * k) l)).
Proof.
  revert l i. induction n as [|n IH]; intros l i Hi; [lia|].
  destruct i as [|i]; cbn.
  - done.
  - rewrite IH by lia. by rewrite drop_drop.
Qed.

Lemma rows_singletons (l : list (json scalar)) :
  map (tolist []) (rows (length l) 1 l) = l.
Proof.
  induction l as [|x l IH]; [done|].
  change (x :: map (tolist []) (rows (length l) 1 l) = x :: l). by rewrite IH.
Qed.

(** X13: a 1-d array is serialized as the list of its elements in order, and
    a 2-d array of shape [(r, c)] as [r] lists of [c] elements, the [j]-th
    element of the [i]-th list being element [i * c + j] of the buffer;
    each element is the string "NaN" when it is not a number, and itself
    otherwise. *)
Theorem serialized_array_layout (flat : list scalar) :
  let encode x := if np_isnan x then JStr "NaN" else JNum x in
  serialize_field (PArray (np.mkArray [length flat] flat))
  = JList (map encode flat)
  ∧ ∀ r c i j x,
      length flat = (r * c)%nat → (i < r)%nat → (j < c)%nat →
      flat !! (i * c + j)%nat = Some x →
      ∃ lists row,
        serialize_field (PArray (np.mkArray [r; c] flat)) = JList lists
        ∧ length lists = r
        ∧ lists !! i = Some (JList row)
        ∧ length row = c
        ∧ row !! j = Some (encode x).
Proof.
  intros encode. split.
  - cbn. f_equal.
    rewrite <- (length_map encode flat) at 1. apply rows_singletons.
  - intros r c i j x Hlen Hi Hj Hx. cbn. rewrite Nat.mul_1_r.
    set (enc := map _ flat).
    assert (length enc = (r * c)%nat) as Hlen' by (subst enc; by rewrite length_map).
    set (row := take c (drop (i * c) enc)).
    assert (length row = c) as Hrow.
    { subst row. rewrite length_take, length_drop. nia. }
    exists (map (tolist [c]) (rows r c enc)), row.
    split; [done|]. split; [by rewrite length_map, rows_length|].
    split; [|split; [done|]].
    + rewrite list_lookup_fmap, rows_lookup by done. cbn. f_equal. f_equal.
      fold row. rewrite <- Hrow at 1. apply rows_singletons.
    + subst row enc. rewrite lookup_take, decide_True by done.
      by rewrite lookup_drop, list_lookup_fmap, Hx.
Qed.

End Layout.

Lemma string_length_app (s t : string) :
  String.length (s +:+ t) = (String.length s + String.length t)%nat.
Proof. induction s as [|c s IH]; [reflexivity|]. exact (f_equal S IH). Qed.

(** X14: the file filter refuses the names that begin with a dot and the
    name [_SUCCESS], and no other name: a longer name that ends in
    [_SUCCESS] is accepted. *)
Theorem is_valid_accepts_success_suffix c s :
  is_valid ("." +:+ s) = false
  ∧ is_valid "_SUCCESS" = false
  ∧ (c ≠ "."%char → is_valid (String c s +:+ "_SUCCESS") = true).
Proof.
  split; [|split].
  - unfold is_valid. change ("." +:+ s) with (String "." s).
    cbn [String.prefix]. destruct (Ascii.ascii_dec "." "."); [|congruence].
    by destruct s.
  - reflexivity.
  - intros Hc. unfold is_valid.
    assert (String.prefix "." (String c s +:+ "_SUCCESS") = false) as ->.
    { change (String c s +:+ "_SUCCESS") with (String c (s +:+ "_SUCCESS")).
      cbn [String.prefix]. by destruct (Ascii.ascii_dec "." c) as [<-|]. }
    assert (String.eqb (String c s +:+ "_SUCCESS") "_SUCCESS" = false) as ->; [|done].
    apply String.eqb_neq. intros H.
    apply (f_equal String.length) in H.
    change (String c s +:+ "_SUCCESS") with (String c (s +:+ "_SUCCESS")) in H.
    cbn [String.length] in H. rewrite string_length_app in H. cbn in H. lia.
Qed.

Section ItemsAndPredictors.

Context {RT : Runtime}.

Lemma serialize_data_entry_insert (data : DataEntry) key v :
  is_None v = false →
  serialize_data_entry (<[key := v]> data)
  = <[key := serialize_field v]> (serialize_data_entry data).
Proof.
  intros Hv. unfold serialize_data_entry. apply omap_insert_Some. by rewrite Hv.
Qed.

Lemma serialize_data_entry_dom_if (b : bool) (data : DataEntry) key v :
  is_None v = false →
  dom (serialize_data_entry (if b then <[key := v]> data else data))
  = (if b then {[key]} else ∅) ∪ dom (serialize_data_entry data).
Proof.
  intros Hv. destruct b.
  - by rewrite serialize_data_entry_insert, dom_insert_L.
  - set_solver.
Qed.

(** X15: serialized after [gluontsify], an item has the keys [start] and
    [target], the key [item] when it has an identifier, and a feature key
    exactly when the metadata declares features of that kind, whatever the
    item itself holds for them. *)
Theorem serialized_item_keys self metadata :
  dom (serialize_data_entry (gluontsify self metadata))
  = ({["start"; "target"]} : gset string)
    ∪ (if tsi_item self is Some _ then {["item"]} else ∅)
    ∪ (if truthy (md_feat_static_cat metadata) then {["feat_static_cat"]} else ∅)
    ∪ (if truthy (md_feat_static_real metadata) then {["feat_static_real"]} else ∅)
    ∪ (if truthy (md_feat_dynamic_cat metadata) then {["feat_dynamic_cat"]} else ∅)
    ∪ (if truthy (md_feat_dynamic_real metadata) then {["feat_dynamic_real"]} else ∅).
Proof.
  unfold gluontsify. cbn zeta.
  rewrite !serialize_data_entry_dom_if by done.
  rewrite !serialize_data_entry_insert, !dom_insert_L by done.
  assert (dom (serialize_data_entry
                 (<["item" := match tsi_item self with
                              | Some s => PStr s
                              | None => PNone
                              end]> (∅ : DataEntry)))
          = (if tsi_item self is Some _ then {["item"]} else ∅ : gset string)) as ->.
  { destruct (tsi_item self).
    - rewrite serialize_data_entry_insert, dom_insert_L by done.
      unfold serialize_data_entry. rewrite omap_empty. set_solver.
    - unfold serialize_data_entry. rewrite omap_insert_None by done.
      rewrite omap_empty, delete_empty. set_solver. }
  set_solver.
Qed.

Lemma concat_replicate_one {A : Type} (l : list A) : concat [l] = l.
Proof. cbn. apply app_nil_r. Qed.

(** The samples broadcast from a single row of the expected width. *)
Lemma broadcast_row {A : Type} (row : list A) (n p : Z) :
  0 <= n → 0 <= p → length row = Z.to_nat p →
  broadcast_to (np.mkArray [1%nat; Z.to_nat p] row) n p
  = Ok (np.mkArray [Z.to_nat n; Z.to_nat p] (concat (replicate (Z.to_nat n) row))).
Proof.
  intros Hn Hp Hlen. unfold broadcast_to.
  replace (n <? 0) with false by lia. replace (p <? 0) with false by lia.
  cbn [orb np.shape np.flat rows mapM].
  replace (take (Z.to_nat p) row) with row
    by (rewrite <- Hlen; symmetry; apply firstn_all).
  unfold stretch. rewrite bool_decide_eq_true_2 by done. cbn.
  rewrite app_nil_r.
  case_bool_decide as H1; [|done].
  rewrite <- H1. cbn. by rewrite !app_nil_r.
Qed.

(** X16: on a univariate target with at least as many observations as the
    horizon asks for and a timestamp for [start], the identity predictor's
    samples are [num_samples] copies of the last [prediction_length]
    observations, and the forecast carries the item's [start] and, if there
    is one, its [id]. *)
Theorem identity_forecast_repeats_last_observations self (item : DataEntry) flat t :
  let p := ip_prediction_length self in
  item !! "target" = Some (PArray (np.mkArray [length flat] flat)) →
  item !! "start" = Some (PTimestamp t) →
  0 < p <= Z.of_nat (length flat) →
  0 <= ip_num_samples self →
  IdentityPredictor_forecast self item
  = Ok (mkSampleForecast
          (np.mkArray [Z.to_nat (ip_num_samples self); Z.to_nat p]
             (concat (replicate (Z.to_nat (ip_num_samples self))
                        (drop (length flat - Z.to_nat p) flat))))
          t (ip_freq self) (default PNone (item !! "id"))).
Proof.
  intros p Htarget Hstart Hp Hn. unfold IdentityPredictor_forecast, getitem.
  rewrite Htarget, Hstart. cbn [bind]. unfold getitem_from. cbn [np.shape np.flat bind].
  fold p.
  assert (slice_start (- p) (length flat) = (length flat - Z.to_nat p)%nat) as ->.
  { unfold slice_start. replace (- p <? 0) with true by lia. lia. }
  replace (length flat - (length flat - Z.to_nat p))%nat with (Z.to_nat p) by lia.
  cbn [foldr]. rewrite Nat.mul_1_r. unfold np.expand_dims. cbn [np.shape np.flat].
  fold p. rewrite broadcast_row by (rewrite ?length_drop; lia). cbn [bind].
  unfold SampleForecast_init. do 2 f_equal. by destruct (item !! "id").
Qed.

(** X17: when the target is shorter than the horizon, a single observation
    is repeated over the whole horizon, and any other length makes
    [broadcast_to] raise its [ValueError]. *)
Theorem identity_forecast_on_short_target self (item : DataEntry) flat t :
  let p := ip_prediction_length self in
  item !! "target" = Some (PArray (np.mkArray [length flat] flat)) →
  item !! "start" = Some (PTimestamp t) →
  Z.of_nat (length flat) < p →
  0 <= ip_num_samples self →
  match flat with
  | [x] =>
      IdentityPredictor_forecast self item
      = Ok (mkSampleForecast
              (np.mkArray [Z.to_nat (ip_num_samples self); Z.to_nat p]
                 (concat (replicate (Z.to_nat (ip_num_samples self))
                            (replicate (Z.to_nat p) x))))
              t (ip_freq self) (default PNone (item !! "id")))
  | _ =>
      IdentityPredictor_forecast self item
      = Raise (ValueError
                 (np_broadcast_text [1%nat; length flat]
                    [Z.to_nat (ip_num_samples self); Z.to_nat p]))
  end.
Proof.
  intros p Htarget Hstart Hp Hn. unfold IdentityPredictor_forecast, getitem.
  rewrite Htarget, Hstart. cbn [bind]. unfold getitem_from. cbn [np.shape np.flat bind].
  fold p.
  assert (slice_start (- p) (length flat) = 0%nat) as ->.
  { unfold slice_start. replace (- p <? 0) with true by lia. lia. }
  rewrite Nat.sub_0_r. cbn [Nat.mul drop].
  unfold np.expand_dims, broadcast_to. cbn [np.shape np.flat]. fold p.
  replace (ip_num_samples self <? 0) with false by lia.
  replace (p <? 0) with false by lia. cbn [orb rows mapM].
  rewrite firstn_all. unfold stretch.
  rewrite bool_decide_eq_false_2 by lia.
  destruct flat as [|x [|y flat]].
  - rewrite bool_decide_eq_false_2 by (cbn; lia). reflexivity.
  - rewrite bool_decide_eq_true_2 by done. cbn -[replicate].
    rewrite !app_nil_r.
    assert (∀ n, (if bool_decide (1%nat = n)
                  then Ok (np.mkArray [n; Z.to_nat p] (replicate (Z.to_nat p) x))
                  else Ok (np.mkArray [n; Z.to_nat p]
                                      (concat (replicate n (replicate (Z.to_nat p) x)))))
                 = Ok (np.mkArray [n; Z.to_nat p]
                                  (concat (replicate n (replicate (Z.to_nat p) x)))))
      as ->.
    { intros n. case_bool_decide as H1; [|done]. subst n. cbn. by rewrite app_nil_r. }
    cbn [bind]. unfold SampleForecast_init. do 2 f_equal. by destruct (item !! "id").
  - rewrite bool_decide_eq_false_2 by (cbn; lia). reflexivity.
Qed.

(** X18: a multivariate target, an array of two dimensions, is always
    refused: the slice keeps both dimensions, and three dimensions cannot be
    broadcast to two. *)
Theorem identity_forecast_refuses_multivariate self (item : DataEntry) d t flat :
  item !! "target" = Some (PArray (np.mkArray [d; t] flat)) →
  ∃ msg, IdentityPredictor_forecast self item = Raise (ValueError msg).
Proof.
  intros Htarget. unfold IdentityPredictor_forecast, getitem.
  rewrite Htarget. cbn [bind]. unfold getitem_from. cbn [np.shape np.flat bind].
  unfold np.expand_dims, broadcast_to. cbn [np.shape].
  destruct (_ || _); cbn; eauto.
Qed.

(** X19: on a month-end or Sunday-anchored weekly frequency the multiple
    plays no part: under [2M] and [M], or [3W] and [W], a value is normalized
    to the same instant, or refused with the same exception. *)
Theorem multiple_is_ignored_on_calendar_grids raw f1 f2 o1 o2 :
  pd_to_offset f1 = Some o1 →
  pd_to_offset f2 = Some o2 →
  pd.name o1 ∈ ["M"; "W-SUN"] →
  pd.name o2 = pd.name o1 →
  match ProcessStartField_process raw f1, ProcessStartField_process raw f2 with
  | Ok t1, Ok t2 =>
      pd.value t1 = pd.value t2 ∧ pd.tz t1 = pd.tz t2
      ∧ pd.freq t1 = Some o1 ∧ pd.freq t2 = Some o2
  | Raise e1, Raise e2 => e1 = e2
  | _, _ => False
  end.
Proof.
  intros H1 H2 Hname Hsame.
  destruct (convert_to_tsobject raw) as [[w z]|e] eqn:Hraw.
  - rewrite (ProcessStartField_process_cases _ _ _ _ _ Hraw H1).
    rewrite (ProcessStartField_process_cases _ _ _ _ _ Hraw H2).
    rewrite Hsame, !bool_decide_eq_true_2 by done.
    destruct (check_bounds (pd.midnight w) z) as [m|]; [|done].
    assert (pd.rollback o2 m = pd.rollback o1 m) as ->.
    { pose proof (pd_to_offset_names f1) as Hcal1.
      pose proof (pd_to_offset_names f2) as Hcal2.
      rewrite <- Hsame in Hname.
      destruct (Grid.name_month_or_sunday o1 ltac:(by rewrite <- Hsame))
        as [[n1 ->]|[[n1 ->]|(n1 & c1 & ->)]];
      destruct (Grid.name_month_or_sunday o2 Hname)
        as [[n2 ->]|[[n2 ->]|(n2 & c2 & ->)]]; try discriminate; try reflexivity.
      all: try (exfalso; apply (Hcal1 _ _ H1); cbn in Hsame;
                rewrite <- Hsame; exact Hname).
      all: try (exfalso; apply (Hcal2 _ _ H2); exact Hname). }
    destruct (pd.rollback o1 m) as [v|]; [|done].
    by destruct (check_bounds v z).
  - unfold ProcessStartField_process, pd_Timestamp. by rewrite Hraw.
Qed.

End ItemsAndPredictors.

(** ** The pipeline on concrete records *)

#[local] Existing Instance Demo.runtime.

(** A scalar given for a static field is accepted and becomes a one-element
    array: a 0-d array does not fail on every field. *)
Lemma scalar_for_static_field_is_promoted :
  let data : DataEntry := <["feat_static_cat" := PNum (Demo.Num 5)]> ∅ in
  np_asarray np.int32 (PNum (Demo.Num 5)) = Ok (np.mkArray [] [Demo.Num 5])
  ∧ np.ndim (np.mkArray [] [Demo.Num 5]) = 0
  ∧ ProcessTimeSeriesField_call
      (ProcessTimeSeriesField_init "feat_static_cat" false true true) data
    = Ok (<["feat_static_cat" := PArray (np.mkArray [1%nat] [Demo.Num 5])]> data).
Proof. vm_compute. repeat split. Qed.

Lemma coercion_by_rank_witness :
  let v : pyval scalar := PList [PNum (Demo.Num 1); PNum (Demo.Num 2); PNum (Demo.Num 3)] in
  let a := np.mkArray [3%nat] [Demo.Num 1; Demo.Num 2; Demo.Num 3] in
  let data : DataEntry := <["feat_dynamic_real" := v]> ∅ in
  let self := ProcessTimeSeriesField_init "feat_dynamic_real" false false false in
  data !! "feat_dynamic_real" = Some v
  ∧ is_None v = false
  ∧ np_asarray (dtype self) v = Ok a
  ∧ ProcessTimeSeriesField_call self data
    = Ok (<["feat_dynamic_real" :=
              PArray (np.mkArray [1%nat; 3%nat] (np.flat a))]> data).
Proof.
  intros v a data self.
  assert (data !! "feat_dynamic_real" = Some v) as Hget by reflexivity.
  assert (is_None v = false) as Hnone by reflexivity.
  assert (np_asarray (dtype self) v = Ok a) as Harr by reflexivity.
  split; [exact Hget|]. split; [exact Hnone|]. split; [exact Harr|].
  destruct (coercion_by_rank "feat_dynamic_real" false false false data v a
              Hget Hnone Harr) as [Hpromote _].
  exact (Hpromote 3%nat eq_refl eq_refl).
Defined.

Lemma rank_error_reports_difference_witness :
  let v : pyval scalar := PList [PList [PList [PNum (Demo.Num 1)]]] in
  let a := np.mkArray [1%nat; 1%nat; 1%nat] [Demo.Num 1] in
  let data : DataEntry := <["feat_static_cat" := v]> ∅ in
  let self := ProcessTimeSeriesField_init "feat_static_cat" false true true in
  let e := GluonTSDataError "JSON array has bad shape - expected 1 dimensions, got -2" in
  np_asarray (dtype self) v = Ok a
  ∧ np.ndim a = 3
  ∧ ProcessTimeSeriesField_call self data = Raise e
  ∧ e = GluonTSDataError (bad_shape_message 1 (1 - 3))
  ∧ 1 - 3 ≠ 3.
Proof.
  intros v a data self e.
  assert (np_asarray (dtype self) v = Ok a) as Harr by reflexivity.
  assert (ProcessTimeSeriesField_call self data = Raise e) as Hcall by reflexivity.
  split; [exact Harr|]. split; [reflexivity|]. split; [exact Hcall|].
  exact (rank_error_reports_difference "feat_static_cat" false true true data v a e
           eq_refl eq_refl Harr Hcall).
Defined.

Lemma none_is_absent_witness :
  let data : DataEntry := <["target" := PNone]> ∅ in
  let self := ProcessTimeSeriesField_init "target" true true false in
  data !! "target" = Some PNone
  ∧ ProcessTimeSeriesField_call self data
    = Raise (GluonTSDataError "JSON object is missing a required field `target`").
Proof.
  intros data self. split; [reflexivity|].
  exact (none_is_absent self data (or_intror eq_refl)).
Defined.

Lemma missing_start_raises_KeyError_witness :
  let data : DataEntry := <["target" := PList [PNum (Demo.Num 1)]]> ∅ in
  data !! "start" = None
  ∧ ProcessDataEntry_call (ProcessDataEntry_init "D" true) data
    = Raise (KeyError "start").
Proof.
  intros data. split; [reflexivity|].
  exact (proj1 (proj2 (missing_start_raises_KeyError "D" true data eq_refl))).
Defined.

(** A dataset of one record is built and saved: the line written has the
    [source] key. *)
Lemma saved_line_has_source :
  let σ : store := <[0%nat := Demo.entry "2014-09-07" [1; 2; 3]]> ∅ in
  match ListDataset_init [0%nat] "D" true σ with
  | (σ', Ok train) =>
      (fun line : gmap string (json scalar) => line !! "source")
        <$> (save_datasets_train train σ').1
      = [Some (JStr "SourceContext(source='list_data', row=1)")]
  | (_, Raise _) => False
  end.
Proof. vm_compute. reflexivity. Qed.

Lemma saved_lines_carry_source_witness :
  let d : DataEntry := <["item" := PNone]> (Demo.entry "2014-09-07" [1; 2; 3]) in
  let σ : store := <[0%nat := d]> ∅ in
  let train := mkListDataset [0%nat] in
  ∃ line,
    (save_datasets_train train σ).1 !! 0%nat = Some line
    ∧ line !! "source" = Some (JStr (py_str (stamp 1)))
    ∧ line !! "item" = None
    ∧ line !! "start" = Some (JStr "2014-09-07").
Proof.
  intros d σ train.
  destruct (saved_lines_carry_source train σ) as (_ & _ & _ & Hline).
  destruct (Hline 0%nat 0%nat d eq_refl eq_refl) as (line & Hi & _ & Hsource & Hkeys).
  exists line. split; [exact Hi|]. split; [exact Hsource|]. split.
  - rewrite (Hkeys "item") by discriminate. reflexivity.
  - rewrite (Hkeys "start") by discriminate. reflexivity.
Defined.

(** A pass over a freshly built dataset changes its stored record: the
    record has no [source] before the pass and has one after it. *)
Lemma iteration_modifies_stored_record :
  let σ : store := <[0%nat := Demo.entry "2014-09-07" [1; 2; 3]]> ∅ in
  match ListDataset_init [0%nat] "D" true σ with
  | (σ', Ok self) =>
      (σ' !! 0%nat ≫= (.!! "source")) = None
      ∧ ((for_each (fun _ => tt) (ListDataset_iter self) σ').2 !! 0%nat
           ≫= (.!! "source"))
        = Some (stamp 1)
  | (_, Raise _) => False
  end.
Proof. vm_compute. split; reflexivity. Qed.

Lemma iteration_only_writes_source_witness :
  let d : DataEntry := Demo.entry "2014-09-07" [1; 2; 3] in
  let σ : store := <[0%nat := d]> ∅ in
  let self := mkListDataset [0%nat; 0%nat] in
  let σ' := (for_each (fun _ => tt) (ListDataset_iter self) σ).2 in
  dom σ' = dom σ
  ∧ σ' !! 0%nat = Some (<["source" := stamp 2]> d)
  ∧ (for_each (fun _ => tt) (ListDataset_iter self) σ').2 = σ'.
Proof.
  intros d σ self σ'.
  destruct (iteration_only_writes_source (fun _ => tt) self σ)
    as (Hdom & _ & _ & _ & Hlast & Hagain).
  split; [exact Hdom|]. split; [|exact Hagain].
  refine (Hlast 1%nat 0%nat d eq_refl _ eq_refl).
  intros j Hj Hlook. destruct j as [|[|j]]; [lia|lia|discriminate Hlook].
Defined.

(** Two records, the second without [start]: construction fails with a
    [KeyError], which is not a [GluonTSDataError]. *)
Lemma construction_fails_with_KeyError :
  let σ : store :=
    <[0%nat := Demo.entry "2014-09-07" [1; 2; 3]]>
      (<[1%nat := <["target" := PList [PNum (Demo.Num 1)]]> ∅]> ∅) in
  (ListDataset_init [0%nat; 1%nat] "D" true σ).2 = Raise (KeyError "start")
  ∧ is_DataError (KeyError "start") = false.
Proof. vm_compute. split; reflexivity. Qed.

Lemma ListDataset_construction_witness :
  let σ : store :=
    <[0%nat := Demo.entry "2014-09-07" [1; 2; 3]]>
      (<[1%nat := <["start" := PStr "2014-09-08"]> ∅]> ∅) in
  ∃ σ' e pre l post σ1,
    ListDataset_init [0%nat; 1%nat] "D" true σ = (σ', Raise e)
    ∧ e = GluonTSDataError "JSON object is missing a required field `target`"
    ∧ [0%nat; 1%nat] = pre ++ l :: post
    ∧ process_each (ProcessDataEntry_run (ProcessDataEntry_init "D" true)) pre σ
      = (σ1, Ok pre)
    ∧ ProcessDataEntry_run (ProcessDataEntry_init "D" true) l σ1 = (σ', Raise e).
Proof.
  intros σ.
  pose proof (ListDataset_construction [0%nat; 1%nat] "D" true σ) as H.
  cbn zeta in H.
  destruct (ListDataset_init [0%nat; 1%nat] "D" true σ) as [σ' [self|e]] eqn:E.
  - exfalso. vm_compute in E. discriminate E.
  - destruct H as (pre & l & post & σ1 & Hsplit & Hpre & Hl).
    exists σ', e, pre, l, post, σ1. split; [reflexivity|].
    split; [|split; [exact Hsplit|split; [exact Hpre|exact Hl]]].
    vm_compute in E. injection E as _ <-. reflexivity.
Defined.



Lemma normalization_idempotent_witness :
  let raw : pyval scalar := PStr "2014-09-10T05:00:00" in
  let ts := pd.mkTimestamp 1409443200000000000 None (Some (pd.MonthEnd 1)) in
  ProcessStartField_process raw "M" = Ok ts
  ∧ ProcessStartField_process (PTimestamp ts) "M" = Ok ts.
Proof.
  intros raw ts.
  assert (ProcessStartField_process raw "M" = Ok ts) as Hfirst by reflexivity.
  split; [exact Hfirst|]. exact (normalization_idempotent raw "M" ts Hfirst).
Defined.



(** The end-to-end scenarios: a daily record keeps its date and gets a 1-d
    target; a start in the middle of a day is floored to midnight. *)
Example daily_record :
  ProcessDataEntry_call (ProcessDataEntry_init "D" true)
    (Demo.entry "2014-09-07T05:00:00" [1; 2; 3])
  = Ok (<["start" := PTimestamp (pd.mkTimestamp 1410048000000000000 None
                                   (Some (pd.Tick 1 pd.Day)))]>
          (<["target" := PArray (np.mkArray [3%nat]
                                   [Demo.Num 1; Demo.Num 2; Demo.Num 3])]> ∅)).
Proof. vm_compute. reflexivity. Qed.

(** A negative multiple of a fixed unit takes the timestamp up to the next
    boundary, and a month-end that falls before the first representable
    instant is refused. *)
Example negative_multiple_rounds_up :
  ProcessStartField_process (PStr "2014-09-07T05:00:00") "-1D"
  = Ok (pd.mkTimestamp 1410134400000000000 None (Some (pd.Tick (-1) pd.Day))).
Proof. vm_compute. reflexivity. Qed.

Example month_end_out_of_range :
  ∃ msg,
    ProcessStartField_process (PStr "1677-09-22") "M" = Raise (ValueError msg)
    ∧ ProcessStartField_call (mkProcessStartField "start" "M")
        (Demo.entry "1677-09-22" [1])
      = Raise (GluonTSDataError (start_error_message (ValueError msg) "start")).
Proof. eexists. vm_compute. split; reflexivity. Qed.

(** ** More concrete records *)

Lemma coerced_field_has_required_rank_witness :
  let self := ProcessTimeSeriesField_init "feat_dynamic_real" false false false in
  let data : DataEntry :=
    <["feat_dynamic_real" := PList [PNum (Demo.Num 1); PNum (Demo.Num 2)]]>
      (<["item" := PStr "a"]> ∅) in
  let data' : DataEntry :=
    <["feat_dynamic_real" :=
        PArray (np.mkArray [1%nat; 2%nat] [Demo.Num 1; Demo.Num 2])]> data in
  ProcessTimeSeriesField_call self data = Ok data'
  ∧ data' !! "item" = data !! "item"
  ∧ ∃ a, data' !! "feat_dynamic_real" = Some (PArray a) ∧ np.ndim a = 2.
Proof.
  intros self data data'.
  assert (ProcessTimeSeriesField_call self data = Ok data') as Hcall by reflexivity.
  split; [exact Hcall|].
  destruct (coerced_field_has_required_rank self data data' Hcall) as [Hother Hfield].
  split; [apply Hother; discriminate | exact Hfield].
Defined.

Lemma conversion_error_escapes_witness :
  let self := ProcessTimeSeriesField_init "target" true false false in
  let v : pyval scalar :=
    PList [PList [PNum (Demo.Num 1); PNum (Demo.Num 2)]; PList [PNum (Demo.Num 3)]] in
  let data : DataEntry := <["target" := v]> ∅ in
  let e := ValueError "setting an array element with a sequence." in
  np_asarray (dtype self) v = Raise e
  ∧ ProcessTimeSeriesField_call self data = Raise e.
Proof.
  intros self v data e.
  assert (np_asarray (dtype self) v = Raise e) as Harr by reflexivity.
  split; [exact Harr|].
  exact (conversion_error_escapes self data v e eq_refl eq_refl Harr).
Defined.

Lemma start_field_postcondition_witness :
  let self := mkProcessStartField "start" "H" in
  let data : DataEntry := Demo.entry "2014-09-07T05:30:00" [1] in
  ∃ data', ProcessStartField_call self data = Ok data'
  ∧ ∃ raw w o v,
      data !! "start" = Some raw
      ∧ convert_to_tsobject raw = Ok (w, None)
      ∧ pd_to_offset "H" = Some o
      ∧ pd.in_bounds v None = true
      ∧ (0 <= pd.multiple o → v <= w)
      ∧ data' = <["start" := PTimestamp (pd.mkTimestamp v None (Some o))]> data.
Proof.
  intros self data.
  destruct (ProcessStartField_call self data) as [data'|e] eqn:Hcall.
  - exists data'. split; [reflexivity|].
    exact (start_field_postcondition self data data' Hcall).
  - exfalso. vm_compute in Hcall. discriminate Hcall.
Defined.

Lemma start_field_wraps_parse_errors_witness :
  let self := mkProcessStartField "start" "D" in
  let data : DataEntry := Demo.entry "yesterday" [1] in
  ∃ e, ProcessStartField_call self data = Raise e
       ∧ (∀ msg, e ≠ TypeError msg) ∧ (∀ msg, e ≠ ValueError msg).
Proof.
  intros self data.
  destruct (ProcessStartField_call self data) as [data'|e] eqn:Hcall.
  - exfalso. vm_compute in Hcall. discriminate Hcall.
  - exists e. split; [reflexivity|].
    exact (start_field_wraps_parse_errors self data e Hcall).
Defined.

Lemma invalid_frequency_is_a_data_error_witness :
  let self := mkProcessStartField "start" "fortnight" in
  let data : DataEntry := Demo.entry "2014-09-07" [1] in
  pd_to_offset "fortnight" = None
  ∧ ProcessStartField_call self data
    = Raise (GluonTSDataError
               (start_error_message (ValueError "Invalid frequency: fortnight") "start")).
Proof.
  intros self data. split; [reflexivity|].
  exact (invalid_frequency_is_a_data_error self data (PStr "2014-09-07")
           (1410048000000000000, None) eq_refl eq_refl eq_refl).
Defined.

Lemma validated_record_invariant_witness :
  let data : DataEntry :=
    <["feat_static_cat" := PNum (Demo.Num 7)]> (Demo.entry "2014-09-07T05:00:00" [1; 2; 3]) in
  ∃ data',
    ProcessDataEntry_call (ProcessDataEntry_init "D" true) data = Ok data'
    ∧ (∃ a, data' !! "target" = Some (PArray a) ∧ np.ndim a = 1)
    ∧ (∃ a, data' !! "feat_static_cat" = Some (PArray a) ∧ np.ndim a = 1)
    ∧ data' !! "feat_dynamic_real" = None.
Proof.
  intros data.
  destruct (ProcessDataEntry_call (ProcessDataEntry_init "D" true) data)
    as [data'|e] eqn:Hcall.
  - exists data'. split; [reflexivity|].
    destruct (validated_record_invariant "D" true data data' Hcall)
      as (_ & Htarget & Hfeat & _).
    split; [exact Htarget|]. split.
    + exact (Hfeat "feat_static_cat" 1
               ltac:(do 2 apply list_elem_of_further; apply list_elem_of_here)).
    + exact (Hfeat "feat_dynamic_real" 2
               ltac:(apply list_elem_of_further, list_elem_of_here)).
  - exfalso. vm_compute in Hcall. discriminate Hcall.
Defined.

Lemma missing_target_is_a_data_error_witness :
  let data : DataEntry :=
    <["start" := PStr "2014-09-07"]> (<["feat_static_cat" := PStr "x"]> ∅) in
  data !! "target" = None
  ∧ ProcessDataEntry_call (ProcessDataEntry_init "D" true) data
    = Raise (GluonTSDataError "JSON object is missing a required field `target`").
Proof.
  intros data. split; [reflexivity|].
  destruct (ProcessStartField_call (mkProcessStartField "start" "D") data)
    as [d1|e] eqn:Hstart.
  - exact (missing_target_is_a_data_error "D" true data d1 Hstart (or_introl eq_refl)).
  - exfalso. vm_compute in Hstart. discriminate Hstart.
Defined.

Lemma Demo_element_stable dt (v : pyval scalar) x :
  np_element dt v = Ok x → np_astype dt x = x.
Proof.
  destruct dt, v as [|[z|]| | | | |]; cbn; try discriminate.
  - destruct (_ && _); [|discriminate]. by intros [= <-].
  - by intros [= <-].
  - by intros [= <-].
  - by intros [= <-].
Qed.

Lemma Demo_astype_stable dt (x : scalar) :
  np_astype dt (np_astype dt x) = np_astype dt x.
Proof. by destruct dt, x. Qed.

Lemma reprocessing_is_identity_witness :
  let data : DataEntry :=
    <["feat_dynamic_real" := PList [PNum (Demo.Num 4); PNum (Demo.Num 5)]]>
      (Demo.entry "2014-09-10T05:00:00" [1; 2]) in
  ∃ data',
    ProcessDataEntry_call (ProcessDataEntry_init "W" true) data = Ok data'
    ∧ ProcessDataEntry_call (ProcessDataEntry_init "W" true) data' = Ok data'.
Proof.
  intros data.
  destruct (ProcessDataEntry_call (ProcessDataEntry_init "W" true) data)
    as [data'|e] eqn:Hcall.
  - exists data'. split; [reflexivity|].
    exact (reprocessing_is_identity Demo_element_stable Demo_astype_stable
             "W" true data data' Hcall).
  - exfalso. vm_compute in Hcall. discriminate Hcall.
Defined.

Lemma construction_frame_witness :
  let σ : store :=
    <[0%nat := Demo.entry "2014-09-07" [1; 2; 3]]>
      (<[1%nat := <["target" := PList [PNum (Demo.Num 1)]]> ∅]> ∅) in
  let σ' := (ListDataset_init [0%nat] "D" true σ).1 in
  dom σ' = dom σ ∧ σ' !! 1%nat = σ !! 1%nat.
Proof.
  intros σ σ'.
  destruct (construction_frame [0%nat] "D" true σ) as [Hdom Hframe].
  split; [exact Hdom|]. apply Hframe.
  intros Hin. apply list_elem_of_singleton in Hin. discriminate Hin.
Defined.

Lemma construction_processes_each_record_witness :
  let σ : store :=
    <[0%nat := Demo.entry "2014-09-07T05:00:00" [1; 2; 3]]>
      (<[1%nat := Demo.entry "2014-09-08" [4]]> ∅) in
  NoDup [0%nat; 1%nat]
  ∧ ∃ σ' self,
      ListDataset_init [0%nat; 1%nat] "D" true σ = (σ', Ok self)
      ∧ ∃ d', ProcessDataEntry_call (ProcessDataEntry_init "D" true)
                (Demo.entry "2014-09-08" [4]) = Ok d'
              ∧ σ' !! 1%nat = Some d'.
Proof.
  intros σ.
  assert (NoDup [0%nat; 1%nat]) as Hnd.
  { apply NoDup_cons. split.
    - intros Hin. apply list_elem_of_singleton in Hin. discriminate Hin.
    - apply NoDup_singleton. }
  assert (∀ l, l ∈ [0%nat; 1%nat] → is_Some (σ !! l)) as Hall.
  { intros l Hl. apply elem_of_cons in Hl as [->|Hl].
    - eexists. reflexivity.
    - apply list_elem_of_singleton in Hl as ->. eexists. reflexivity. }
  split; [exact Hnd|].
  pose proof (construction_processes_each_record [0%nat; 1%nat] "D" true σ Hnd Hall) as H.
  cbn zeta in H.
  destruct (ListDataset_init [0%nat; 1%nat] "D" true σ) as [σ' [self|e]] eqn:E.
  - exists σ', self. split; [reflexivity|].
    apply (H 1%nat); [|reflexivity].
    apply list_elem_of_further, list_elem_of_here.
  - exfalso. vm_compute in E. discriminate E.
Defined.

Lemma len_counts_records_witness :
  let σ : store :=
    <[0%nat := Demo.entry "2014-09-07" [1; 2; 3]]>
      (<[1%nat := Demo.entry "2014-09-08" [4]]> ∅) in
  ∃ σ' self,
    ListDataset_init [0%nat; 1%nat] "D" true σ = (σ', Ok self)
    ∧ ListDataset_len self = 2%nat
    ∧ length (for_each (fun _ => tt) (ListDataset_iter self) σ').1 = ListDataset_len self.
Proof.
  intros σ.
  destruct (ListDataset_init [0%nat; 1%nat] "D" true σ) as [σ' [self|e]] eqn:E.
  - exists σ', self. split; [reflexivity|].
    exact (len_counts_records (fun _ => tt) [0%nat; 1%nat] "D" true σ σ' self σ' E).
  - exfalso. vm_compute in E. discriminate E.
Defined.

Lemma pass_leaves_last_row_witness :
  let d : DataEntry := Demo.entry "2014-09-07" [1] in
  let σ : store := <[5%nat := d]> ∅ in
  let self := mkListDataset [5%nat; 5%nat] in
  (for_each (fun _ => tt) (ListDataset_iter self) σ).2 !! 5%nat
  = Some (<["source" := stamp 2]> d).
Proof.
  intros d σ self.
  refine (pass_leaves_last_row (fun _ => tt) self σ 1 5%nat d eq_refl _ eq_refl).
  intros j Hj Hlook. destruct j as [|[|j]]; [lia|lia|discriminate Hlook].
Defined.

Lemma serialized_array_layout_witness :
  let flat : list scalar :=
    [Demo.Num 1; Demo.NaN; Demo.Num 3; Demo.Num 4; Demo.Num 5; Demo.Num 6] in
  serialize_field (PArray (np.mkArray [6%nat] flat))
  = JList [JNum (Demo.Num 1); JStr "NaN"; JNum (Demo.Num 3);
           JNum (Demo.Num 4); JNum (Demo.Num 5); JNum (Demo.Num 6)]
  ∧ ∃ lists row,
      serialize_field (PArray (np.mkArray [2%nat; 3%nat] flat)) = JList lists
      ∧ length lists = 2%nat
      ∧ lists !! 0%nat = Some (JList row)
      ∧ length row = 3%nat
      ∧ row !! 1%nat = Some (JStr "NaN").
Proof.
  intros flat.
  destruct (serialized_array_layout flat) as [Hvector Hmatrix].
  split; [exact Hvector|].
  exact (Hmatrix 2%nat 3%nat 0%nat 1%nat Demo.NaN eq_refl
           ltac:(lia) ltac:(lia) eq_refl).
Defined.

Lemma is_valid_accepts_success_suffix_witness :
  is_valid ".hidden" = false
  ∧ is_valid "_SUCCESS" = false
  ∧ is_valid "part_SUCCESS" = true.
Proof.
  destruct (is_valid_accepts_success_suffix "p" "art") as (_ & Hmark & Hsuffix).
  split; [exact (proj1 (is_valid_accepts_success_suffix "p" "hidden"))|].
  split; [exact Hmark|]. apply Hsuffix. discriminate.
Defined.

Lemma identity_forecast_repeats_last_observations_witness :
  let self := mkIdentityPredictor 2 "D" 3 in
  let start := pd.mkTimestamp 1410048000000000000 None (Some (pd.Tick 1 pd.Day)) in
  let item : DataEntry :=
    <["start" := PTimestamp start]>
      (<["target" := PArray (np.mkArray [4%nat]
                               [Demo.Num 1; Demo.Num 2; Demo.Num 3; Demo.Num 4])]> ∅) in
  IdentityPredictor_forecast self item
  = Ok (mkSampleForecast
          (np.mkArray [3%nat; 2%nat]
             [Demo.Num 3; Demo.Num 4; Demo.Num 3; Demo.Num 4; Demo.Num 3; Demo.Num 4])
          start "D" PNone).
Proof.
  intros self start item.
  exact (identity_forecast_repeats_last_observations self item
           [Demo.Num 1; Demo.Num 2; Demo.Num 3; Demo.Num 4] start
           eq_refl eq_refl ltac:(cbn; lia) ltac:(cbn; lia)).
Defined.

Lemma identity_forecast_on_short_target_witness :
  let self := mkIdentityPredictor 3 "D" 2 in
  let start := pd.mkTimestamp 1410048000000000000 None (Some (pd.Tick 1 pd.Day)) in
  let item : DataEntry :=
    <["start" := PTimestamp start]>
      (<["target" := PArray (np.mkArray [1%nat] [Demo.Num 9])]> ∅) in
  IdentityPredictor_forecast self item
  = Ok (mkSampleForecast
          (np.mkArray [2%nat; 3%nat]
             [Demo.Num 9; Demo.Num 9; Demo.Num 9; Demo.Num 9; Demo.Num 9; Demo.Num 9])
          start "D" PNone).
Proof.
  intros self start item.
  exact (identity_forecast_on_short_target self item [Demo.Num 9] start
           eq_refl eq_refl ltac:(cbn; lia) ltac:(cbn; lia)).
Defined.

Lemma identity_forecast_refuses_multivariate_witness :
  let self := mkIdentityPredictor 2 "D" 3 in
  let item : DataEntry :=
    <["start" := PStr "s"]>
      (<["target" := PArray (np.mkArray [2%nat; 2%nat]
                               [Demo.Num 1; Demo.Num 2; Demo.Num 3; Demo.Num 4])]> ∅) in
  ∃ msg, IdentityPredictor_forecast self item = Raise (ValueError msg).
Proof.
  intros self item.
  exact (identity_forecast_refuses_multivariate self item 2%nat 2%nat
           [Demo.Num 1; Demo.Num 2; Demo.Num 3; Demo.Num 4] eq_refl).
Defined.

Lemma multiple_is_ignored_on_calendar_grids_witness :
  let raw : pyval scalar := PStr "2014-09-10T05:00:00" in
  match ProcessStartField_process raw "2M", ProcessStartField_process raw "M" with
  | Ok t1, Ok t2 =>
      pd.value t1 = pd.value t2 ∧ pd.tz t1 = pd.tz t2
      ∧ pd.freq t1 = Some (pd.MonthEnd 2) ∧ pd.freq t2 = Some (pd.MonthEnd 1)
  | Raise e1, Raise e2 => e1 = e2
  | _, _ => False
  end.
Proof.
  intros raw.
  exact (multiple_is_ignored_on_calendar_grids raw "2M" "M"
           (pd.MonthEnd 2) (pd.MonthEnd 1)
           eq_refl eq_refl ltac:(apply list_elem_of_here) eq_refl).
Defined.
